(** * The agent loop of [backend/agent/run.py]

    A shallow embedding of [run_agent], the asynchronous generator that
    drives one agent run: the credit gate, the tool registration, and the
    [while continue_execution] loop that starts a model session per attempt,
    forwards every streamed chunk and decides whether to go on.

    The collaborators of [run_agent] ([check_billing_status], the tool
    constructors, [thread_manager.run_thread], the stream it returns and
    [json.loads]) live outside the module; they are oracles here.  What the
    generator does is recorded as a trace of events (calls made to the
    collaborators, chunks yielded to the caller, log lines) together with
    the way the generator ended. *)

From Stdlib Require Import String Ascii List ZArith Bool Arith Lia DecimalString.
Import ListNotations.
Open Scope string_scope.
Open Scope list_scope.

Set Warnings "-register-all".

(** ** Python values *)

(** The chunks are plain Python data.  A dict is kept as an association
    list; lookup takes the first binding of a key. *)
Inductive pyval : Type :=
| PNone
| PBool (b : bool)
| PInt (z : Z)
| PStr (s : string)
| PList (l : list pyval)
| PDict (d : list (string * pyval)).

Definition pydict := list (string * pyval).

(** [d.get(key)], with [None] for a missing key. *)
Fixpoint dict_get (key : string) (d : pydict) : option pyval :=
  match d with
  | [] => None
  | (k, v) :: rest => if String.eqb k key then Some v else dict_get key rest
  end.

(** [key in d] *)
Definition dict_mem (key : string) (d : pydict) : bool :=
  match dict_get key d with Some _ => true | None => false end.

(** [d.get(key, default)] *)
Definition dict_get_default (key : string) (default : pyval) (d : pydict) : pyval :=
  match dict_get key d with Some v => v | None => default end.

(** [v == s] for a string literal [s]; [v] is the result of a [.get]. *)
Definition py_eq_str (v : option pyval) (s : string) : bool :=
  match v with
  | Some (PStr t) => String.eqb t s
  | _ => false
  end.

(** Truth value of a Python object, as [if] and [not] take it. *)
Definition truthy (v : pyval) : bool :=
  match v with
  | PNone => false
  | PBool b => b
  | PInt z => negb (Z.eqb z 0)
  | PStr s => negb (String.eqb s "")
  | PList l => match l with [] => false | _ => true end
  | PDict d => match d with [] => false | _ => true end
  end.

Definition is_dict (v : pyval) : bool :=
  match v with PDict _ => true | _ => false end.

(** [type(v).__name__], used in the messages of the interpreter's own
    exceptions. *)
Definition type_name (v : pyval) : string :=
  match v with
  | PNone => "NoneType"
  | PBool _ => "bool"
  | PInt _ => "int"
  | PStr _ => "str"
  | PList _ => "list"
  | PDict _ => "dict"
  end.

(** [needle in hay] on strings. *)
Fixpoint contains (needle hay : string) : bool :=
  if String.prefix needle hay then true
  else match hay with
       | EmptyString => false
       | String _ rest => contains needle rest
       end.

(** ** Exceptions *)

(** An exception object: whether its class derives from [Exception] (the
    handlers of the loop are [except Exception]; [asyncio.CancelledError],
    [KeyboardInterrupt] and the like derive from [BaseException] only) and
    what [str(e)] gives. *)
Record exn : Type := mkExn {
  is_Exception : bool;
  exn_str : string
}.

(** [v.get] on a value that is not a dict. *)
Definition AttributeError_get (v : pyval) : exn :=
  mkExn true ("'" ++ type_name v ++ "' object has no attribute 'get'")%string.

(** [async for] over a value that is no asynchronous iterator. *)
Definition TypeError_aiter (v : pyval) : exn :=
  mkExn true ("'async for' requires an object with __aiter__ method, got " ++ type_name v)%string.

(** [billing_status["has_credits"]] on a dict without that key. *)
Definition KeyError_has_credits : exn := mkExn true "'has_credits'".

(** The use of a name the module never imports. *)
Definition NameError_DataProvidersTool : exn :=
  mkExn true "name 'DataProvidersTool' is not defined".

(** ** Events and outcomes *)

(** The log lines of [run_agent], one constructor per call to [logger],
    carrying the value the line interpolates. *)
Inductive log_entry : Type :=
| LogErrorResponse (message : pyval)       (* error: Error response from run_thread *)
| LogErrorChunk (message : pyval)          (* error: Error chunk detected *)
| LogXmlTool (xml_tool : string)           (* info: Agent used XML tool *)
| LogJsonWarning (content : option pyval)  (* warning: Could not parse assistant content JSON *)
| LogChunkError (e : exn)                  (* error: Error processing assistant chunk *)
| LogStopError                             (* info: Stopping due to error detected in response *)
| LogStopTool (last_tool_call : option string) (* info: Agent decided to stop with tool *)
| LogError (error_msg : string).           (* error: Error: ... *)

Inductive event : Type :=
| EvBilling (user_id : string)   (* await check_billing_status(user_id) *)
| EvRunThread (attempt : nat)    (* await thread_manager.run_thread(...) *)
| EvYield (chunk : pyval)        (* yield chunk *)
| EvLog (entry : log_entry).

(** How the generator stands after the events: it returned (the sequence
    ended), an exception left it, or the loop is still going (the bound on
    the number of attempts was reached first). *)
Inductive outcome : Type :=
| Returned
| Raised (e : exn)
| Running.

(** ** The collaborators *)

Inductive billing_outcome : Type :=
| BillingReturns (billing_status : pydict)
| BillingRaises (e : exn).

(** A stream of chunks: the chunks it produces, then a normal end or an
    exception raised by the next pull. *)
Inductive stream_end : Type :=
| EndNormal
| EndRaise (e : exn).

Record stream : Type := mkStream {
  items : list pyval;
  ending : stream_end
}.

(** What [run_thread] returns: an asynchronous generator, or a plain value
    (the error dict of a session that did not start, among others). *)
Inductive response : Type :=
| RespValue (v : pyval)
| RespStream (s : stream).

Inductive start_outcome : Type :=
| StartReturns (r : response)
| StartRaises (e : exn).

Record world : Type := mkWorld {
  (** [check_billing_status(user_id)] *)
  check_billing_status : billing_outcome;
  (** the construction of [ThreadManager] and of the tools, and their
      registration: the exception one of them raises, if any *)
  tool_setup : option exn;
  (** truth value of [config.RAPID_API_KEY] *)
  RAPID_API_KEY : bool;
  (** [thread_manager.run_thread(...)] of the n-th attempt, counted from 0 *)
  run_thread : nat -> start_outcome
}.

(** ** Chunk inspection *)

(** The fragments [run_agent] builds itself. *)
Definition credits_error : pyval :=
  PDict [("type", PStr "status"); ("status", PStr "error");
         ("message", PStr "You don't have enough credits to run the agent. Please upgrade your plan.")].

Definition status_error (error_msg : string) : pyval :=
  PDict [("type", PStr "status"); ("status", PStr "error"); ("message", PStr error_msg)].

Definition streaming_error_msg (e : exn) : string :=
  ("Error during response streaming: " ++ exn_str e)%string.

Definition thread_error_msg (e : exn) : string :=
  ("Error running thread: " ++ exn_str e)%string.

(** [isinstance(chunk, dict) and chunk.get('type') == 'status'
     and chunk.get('status') == 'error'] *)
Definition is_error_chunk (chunk : pyval) : bool :=
  match chunk with
  | PDict d => py_eq_str (dict_get "type" d) "status"
               && py_eq_str (dict_get "status" d) "error"
  | _ => false
  end.

(** [isinstance(response, dict) and "status" in response
     and response["status"] == "error"] *)
Definition is_error_response (r : response) : bool :=
  match r with
  | RespValue (PDict d) => dict_mem "status" d && py_eq_str (dict_get "status" d) "error"
  | _ => false
  end.

(** The closing-tag scan of one assistant text: the value assigned to
    [last_tool_call], if the outer test passes. *)
Definition scan_markers (assistant_text : string) : option string :=
  if contains "</ask>" assistant_text
     || contains "</complete>" assistant_text
     || contains "</web-browser-takeover>" assistant_text
  then
    if contains "</ask>" assistant_text then Some "ask"
    else if contains "</complete>" assistant_text then Some "complete"
    else if contains "</web-browser-takeover>" assistant_text then Some "web-browser-takeover"
    else None
  else None.

(** [last_tool_call in ['ask', 'complete', 'web-browser-takeover']] *)
Definition stops_on (last_tool_call : option string) : bool :=
  match last_tool_call with
  | None => false
  | Some t => existsb (String.eqb t) ["ask"; "complete"; "web-browser-takeover"]
  end.

(** The loop-local variables of one attempt. *)
Record run_state : Type := mkState {
  last_tool_call : option string;
  error_detected : bool
}.

Definition initial_state : run_state := mkState None false.

(** The result of a step that may raise. *)
Inductive step (A : Type) : Type :=
| Normal (a : A)
| Raise (e : exn).
Arguments Normal {A} a.
Arguments Raise {A} e.

Section Loop.

(** [json.loads] on a string: the decoded value, or [None] for a
    [JSONDecodeError]. *)
Variable json_loads : string -> option pyval.

(** What the [try] block over an assistant chunk finds. *)
Inductive inspection : Type :=
| Text (assistant_text : pyval)   (* the nested content was read *)
| JSONDecodeError                 (* json.loads rejected the content *)
| OtherError (e : exn).           (* the decoded content has no .get *)

(** Lines 176 to 182: the content, decoded if it is a string, and its
    nested ['content']. *)
Definition inspect_content (chunk : pydict) : inspection :=
  let content := dict_get_default "content" (PStr "{}") chunk in
  let decoded :=
    match content with
    | PStr s => json_loads s
    | other => Some other
    end in
  match decoded with
  | None => JSONDecodeError
  | Some (PDict assistant_content_json) =>
      Text (dict_get_default "content" (PStr "") assistant_content_json)
  | Some other => OtherError (AttributeError_get other)
  end.

(** Lines 174 to 198: the marker detection of one assistant chunk, with
    its two handlers.  Gives the log lines and the new [last_tool_call]. *)
Definition detect_markers (chunk : pydict) (last_tool_call : option string)
  : list event * option string :=
  match inspect_content chunk with
  | Text (PStr assistant_text) =>
      match scan_markers assistant_text with
      | Some xml_tool => ([EvLog (LogXmlTool xml_tool)], Some xml_tool)
      | None => ([], last_tool_call)
      end
  | Text _ => ([], last_tool_call)
  | JSONDecodeError =>
      ([EvLog (LogJsonWarning (dict_get "content" chunk))], last_tool_call)
  | OtherError e => ([EvLog (LogChunkError e)], last_tool_call)
  end.

(** The body of the [async for], lines 165 to 199. *)
Definition process_chunk (st : run_state) (chunk : pyval)
  : list event * step run_state :=
  if is_error_chunk chunk then
    match chunk with
    | PDict d =>
        ([EvLog (LogErrorChunk (dict_get_default "message" (PStr "Unknown error") d));
          EvYield chunk],
         Normal (mkState (last_tool_call st) true))
    | _ => ([], Raise (AttributeError_get chunk))
    end
  else
    match chunk with
    | PDict d =>
        if py_eq_str (dict_get "type" d) "assistant" && dict_mem "content" d then
          let (logs, ltc) := detect_markers d (last_tool_call st) in
          (logs ++ [EvYield chunk], Normal (mkState ltc (error_detected st)))
        else
          ([EvYield chunk], Normal st)
    | _ => ([], Raise (AttributeError_get chunk))
    end.

(** [async for chunk in response] over the chunks a stream produces. *)
Fixpoint consume (st : run_state) (chunks : list pyval)
  : list event * step run_state :=
  match chunks with
  | [] => ([], Normal st)
  | chunk :: rest =>
      match process_chunk st chunk with
      | (evs, Normal st') =>
          let (evs', r) := consume st' rest in (evs ++ evs', r)
      | (evs, Raise e) => (evs, Raise e)
      end
  end.

(** The whole [async for]: the chunks, then the way the stream ends; a
    response that is no stream raises at once. *)
Definition iterate (r : response) : list event * step run_state :=
  match r with
  | RespValue v => ([], Raise (TypeError_aiter v))
  | RespStream s =>
      match consume initial_state (items s) with
      | (evs, Normal st) =>
          match ending s with
          | EndNormal => (evs, Normal st)
          | EndRaise e => (evs, Raise e)
          end
      | (evs, Raise e) => (evs, Raise e)
      end
  end.

(** How one pass through the body of the [while] ends. *)
Inductive control : Type :=
| Break                                   (* break *)
| NextTest (continue_execution : bool)    (* back to the test of the while *)
| Propagate (e : exn).                    (* an exception no handler took *)

Variable w : world.

(** One pass through the body of the [while], lines 133 to 230. *)
Definition attempt (i : nat) : list event * control :=
  match run_thread w i with
  | StartRaises e =>
      if is_Exception e then
        ([EvRunThread i; EvLog (LogError (thread_error_msg e));
          EvYield (status_error (thread_error_msg e))], Break)
      else ([EvRunThread i], Propagate e)
  | StartReturns r =>
      if is_error_response r then
        match r with
        | RespValue (PDict d) =>
            ([EvRunThread i;
              EvLog (LogErrorResponse (dict_get_default "message" (PStr "Unknown error") d));
              EvYield (PDict d)], Break)
        | _ => ([EvRunThread i], Break)
        end
      else
        match iterate r with
        | (evs, Normal st) =>
            if error_detected st then
              (EvRunThread i :: evs ++ [EvLog LogStopError], Break)
            else if stops_on (last_tool_call st) then
              (EvRunThread i :: evs ++ [EvLog (LogStopTool (last_tool_call st))],
               NextTest false)
            else (EvRunThread i :: evs, NextTest true)
        | (evs, Raise e) =>
            if is_Exception e then
              (EvRunThread i :: evs ++ [EvLog (LogError (streaming_error_msg e));
                                        EvYield (status_error (streaming_error_msg e))],
               Break)
            else (EvRunThread i :: evs, Propagate e)
        end
  end.

(** [while continue_execution], entered with [continue_execution] true,
    from attempt [i] on, for at most [fuel] attempts. *)
Fixpoint while_loop (fuel i : nat) : list event * outcome :=
  match fuel with
  | O => ([], Running)
  | S fuel' =>
      match attempt i with
      | (evs, Break) => (evs, Returned)
      | (evs, NextTest false) => (evs, Returned)
      | (evs, NextTest true) =>
          let (evs', o) := while_loop fuel' (S i) in (evs ++ evs', o)
      | (evs, Propagate e) => (evs, Raised e)
      end
  end.

(** Lines 67 to 128: the thread manager and its tools.  The attributes set
    on the thread manager take no part in the control flow. *)
Definition setup_then (k : list event * outcome) : list event * outcome :=
  match tool_setup w with
  | Some e => ([], Raised e)
  | None =>
      if RAPID_API_KEY w then ([], Raised NameError_DataProvidersTool)
      else k
  end.

(** [if user_id:] *)
Definition user_id_given (user_id : option string) : option string :=
  match user_id with
  | Some u => if String.eqb u "" then None else Some u
  | None => None
  end.

(** [run_agent], for at most [fuel] attempts of the loop.  Of its
    parameters only [user_id] takes part in the control flow; the others
    are handed to [run_thread]. *)
Definition run_agent (user_id : option string) (fuel : nat)
  : list event * outcome :=
  match user_id_given user_id with
  | Some u =>
      match check_billing_status w with
      | BillingRaises e => ([EvBilling u], Raised e)
      | BillingReturns billing_status =>
          match dict_get "has_credits" billing_status with
          | None => ([EvBilling u], Raised KeyError_has_credits)
          | Some has_credits =>
              if negb (truthy has_credits) then
                ([EvBilling u; EvYield credits_error], Returned)
              else
                let (evs, o) := setup_then (while_loop fuel 0) in
                (EvBilling u :: evs, o)
          end
      end
  | None => setup_then (while_loop fuel 0)
  end.

End Loop.

(** ** Reading a trace *)

(** The chunks the caller receives, in order. *)
Definition yields (t : list event) : list pyval :=
  flat_map (fun ev => match ev with EvYield c => [c] | _ => [] end) t.

(** The attempts for which a model session was started, in order. *)
Definition started (t : list event) : list nat :=
  flat_map (fun ev => match ev with EvRunThread i => [i] | _ => [] end) t.

(** The number of calls to the billing check. *)
Definition billing_calls (t : list event) : nat :=
  length (filter (fun ev => match ev with EvBilling _ => true | _ => false end) t).

(** The events the body of the [async for] can leave. *)
Definition chunk_level (ev : event) : bool :=
  match ev with
  | EvYield _ => true
  | EvLog (LogErrorChunk _) => true
  | EvLog (LogXmlTool _) => true
  | EvLog (LogJsonWarning _) => true
  | EvLog (LogChunkError _) => true
  | _ => false
  end.

(** The chunks the stream of attempt [i] produces; none when no stream
    was obtained. *)
Definition stream_items (w : world) (i : nat) : list pyval :=
  match run_thread w i with
  | StartReturns (RespStream s) => items s
  | _ => []
  end.

(** The chunks produced by the streams of the given attempts, attempt
    after attempt. *)
Definition produced (w : world) (attempts : list nat) : list pyval :=
  flat_map (stream_items w) attempts.

(** A chunk whose status is ["error"]. *)
Definition has_error_status (chunk : pyval) : bool :=
  match chunk with
  | PDict d => py_eq_str (dict_get "status" d) "error"
  | _ => false
  end.

(** Some closing tag occurs in the text. *)
Definition has_marker (assistant_text : string) : bool :=
  contains "</ask>" assistant_text
  || contains "</complete>" assistant_text
  || contains "</web-browser-takeover>" assistant_text.

(** The same world with another answer of the billing check. *)
Definition with_billing (b : billing_outcome) (w : world) : world :=
  mkWorld b (tool_setup w) (RAPID_API_KEY w) (run_thread w).

(** The decoded text of an assistant chunk: the text the closing-tag scan
    runs on, when the chunk is an assistant chunk with a content whose
    nested ['content'] is a string. *)
Definition assistant_text_of (json_loads : string -> option pyval) (chunk : pyval)
  : option string :=
  match chunk with
  | PDict d =>
      if py_eq_str (dict_get "type" d) "assistant" && dict_mem "content" d then
        match inspect_content json_loads d with
        | Text (PStr assistant_text) => Some assistant_text
        | _ => None
        end
      else None
  | _ => None
  end.

(** The tool a chunk makes the loop record, if any. *)
Definition chunk_marker (json_loads : string -> option pyval) (chunk : pyval)
  : option string :=
  match assistant_text_of json_loads chunk with
  | Some assistant_text => scan_markers assistant_text
  | None => None
  end.

(** [last_tool_call] after a chunk, given its value before. *)
Definition record_marker (json_loads : string -> option pyval)
  (last_tool_call : option string) (chunk : pyval) : option string :=
  match chunk_marker json_loads chunk with
  | Some xml_tool => Some xml_tool
  | None => last_tool_call
  end.

(** [last_tool_call] and [error_detected] after a run of chunks. *)
Definition state_after (json_loads : string -> option pyval)
  (st : run_state) (chunks : list pyval) : run_state :=
  mkState (fold_left (record_marker json_loads) chunks (last_tool_call st))
          (error_detected st || existsb is_error_chunk chunks).

(** The chunk makes the loop record a tool. *)
Definition marks (json_loads : string -> option pyval) (chunk : pyval) : bool :=
  match chunk_marker json_loads chunk with Some _ => true | None => false end.

(** Nothing raises before the loop: the credit check, when it is made,
    returns a dict with the key [has_credits]; the tools are set up; and
    the branch of [config.RAPID_API_KEY] is not taken. *)
Definition setup_completes (w : world) (user_id : option string) : Prop :=
  (user_id_given user_id = None
   \/ exists billing_status has_credits,
        check_billing_status w = BillingReturns billing_status
        /\ dict_get "has_credits" billing_status = Some has_credits)
  /\ tool_setup w = None
  /\ RAPID_API_KEY w = false.

(** What the sessions raise, at their start or from their stream, derives
    from [Exception]. *)
Definition raises_only_Exception (w : world) : Prop :=
  (forall i e, run_thread w i = StartRaises e -> is_Exception e = true)
  /\ (forall i s e, run_thread w i = StartReturns (RespStream s) ->
                    ending s = EndRaise e -> is_Exception e = true).

(** Every chunk of every stream is a dict, as the declared element type
    of the generator has it. *)
Definition streams_of_dicts (w : world) : Prop :=
  forall i, forallb is_dict (stream_items w i) = true.

(** No failure anywhere: the credit check passes when it is made, the
    setup completes, and every session starts and gives a stream that
    ends normally. *)
Definition failure_free (w : world) (user_id : option string) : Prop :=
  (user_id_given user_id = None
   \/ exists billing_status has_credits,
        check_billing_status w = BillingReturns billing_status
        /\ dict_get "has_credits" billing_status = Some has_credits
        /\ truthy has_credits = true)
  /\ tool_setup w = None
  /\ RAPID_API_KEY w = false
  /\ (forall i, exists s, run_thread w i = StartReturns (RespStream s)
                         /\ ending s = EndNormal).

(** ** Sample data *)

Definition dquote : string := String "034"%char EmptyString.

Definition envelope_open : string :=
  ("{" ++ dquote ++ "content" ++ dquote ++ ": " ++ dquote)%string.

Definition envelope_close : string := (dquote ++ "}")%string.

(** The text of a JSON string literal without escapes, up to the end of
    the envelope. *)
Fixpoint plain_body (s : string) : option string :=
  if String.eqb s envelope_close then Some ""
  else match s with
       | EmptyString => None
       | String c rest =>
           if Ascii.eqb c "034"%char || Ascii.eqb c "092"%char then None
           else option_map (String c) (plain_body rest)
       end.

(** A decoder for the one-field envelopes [{"content": "..."}] of the
    examples; any other text is rejected. *)
Definition sample_loads (s : string) : option pyval :=
  if String.prefix envelope_open s then
    match plain_body (substring (String.length envelope_open)
                                (String.length s - String.length envelope_open) s) with
    | Some body => Some (PDict [("content", PStr body)])
    | None => None
    end
  else None.

Definition envelope (text : string) : string :=
  (envelope_open ++ text ++ envelope_close)%string.

Definition assistant_chunk (content : pyval) : pyval :=
  PDict [("type", PStr "assistant"); ("content", content)].

Definition tool_chunk (text : string) : pyval :=
  PDict [("type", PStr "tool"); ("content", PStr text)].

Definition upstream_error : pyval :=
  PDict [("type", PStr "status"); ("status", PStr "error");
         ("message", PStr "rate limited")].

Definition connection_reset : exn := mkExn true "connection reset".

Definition billing_unreachable : exn := mkExn true "billing service unreachable".

(** A stream of a session that keeps working: one assistant chunk
    without a tag. *)
Definition working_stream : stream :=
  mkStream [assistant_chunk (PStr (envelope "step"))] EndNormal.

(** A stream that ends with the complete tag. *)
Definition completing_stream : stream :=
  mkStream
    [assistant_chunk (PStr (envelope "thinking"));
     assistant_chunk (PStr (envelope "All done <complete>ok</complete>"))]
    EndNormal.

(** A stream that reports an error after a complete tag and goes on. *)
Definition erroring_stream : stream :=
  mkStream
    [assistant_chunk (PStr (envelope "<complete>ok</complete>"));
     upstream_error;
     tool_chunk "late result"]
    EndNormal.

(** A stream that breaks after one chunk. *)
Definition breaking_stream : stream :=
  mkStream [assistant_chunk (PStr (envelope "step"))] (EndRaise connection_reset).

(** The error dict of a session that did not start. *)
Definition refused : pydict :=
  [("status", PStr "error"); ("message", PStr "model not found")].

(** An assistant chunk with both tags in its text, and one whose content
    is no JSON text. *)
Definition both_tags : string := "<complete>ok</complete> <ask>sure?</ask>".

Definition undecodable : pydict :=
  [("type", PStr "assistant"); ("content", PStr "not json")].

Definition has_credits_yes : billing_outcome :=
  BillingReturns [("has_credits", PBool true)].

Definition has_credits_no : billing_outcome :=
  BillingReturns [("has_credits", PBool false)].

(** A world where the setup completes: one working attempt, then the
    given session for every later one. *)
Definition after_one (b : billing_outcome) (later : start_outcome) : world :=
  mkWorld b None false
    (fun i => match i with
              | O => StartReturns (RespStream working_stream)
              | S _ => later
              end).

(** More sample data: a world whose [config.RAPID_API_KEY] is set, a
    stream with a chunk that is no dict, a decoder that knows the empty
    JSON list, and chunks to go with it. *)
Definition keyed_world : world :=
  mkWorld has_credits_yes None true
    (fun _ => StartReturns (RespStream completing_stream)).

Definition garbled_stream : stream :=
  mkStream
    [assistant_chunk (PStr (envelope "step")); PStr "keep-alive"; tool_chunk "late result"]
    EndNormal.

Definition list_loads (s : string) : option pyval :=
  if String.eqb s "[]" then Some (PList []) else sample_loads s.

Definition content_blocks : pydict :=
  [("content", PList [PDict [("type", PStr "text"); ("text", PStr "<complete>ok</complete>")]])].

(** * The path cleaning of [backend/agent/tools/code_interpreter_tool.py]

    A character of a path is one [ascii]; the slash, the dot and the
    letters of the prefix are single bytes that occur in no other
    character of a UTF-8 text. *)

Module CodeInterpreterTool.

(** [s.lstrip('/')] *)
Fixpoint lstrip_slash (s : string) : string :=
  match s with
  | String c rest => if Ascii.eqb c "/"%char then lstrip_slash rest else s
  | EmptyString => EmptyString
  end.

(** [s[n:]] *)
Fixpoint drop (n : nat) (s : string) : string :=
  match n, s with
  | S n', String _ rest => drop n' rest
  | _, _ => s
  end.

(** [s.replace(old, new)] for a pattern [old] that is not empty: the
    occurrences of [old] are taken from the left and do not overlap.
    [skip] counts the characters of an occurrence still to be passed. *)
Fixpoint replace_from (old new : string) (skip : nat) (s : string) : string :=
  match s with
  | EmptyString => EmptyString
  | String c rest =>
      match skip with
      | S skip' => replace_from old new skip' rest
      | O =>
          if String.prefix old s
          then (new ++ replace_from old new (String.length old - 1) rest)%string
          else String c (replace_from old new 0 rest)
      end
  end.

Definition replace (old new s : string) : string := replace_from old new 0 s.

(** [_clean_path], lines 398 to 408. *)
Definition _clean_path (path : string) : string :=
  let path := lstrip_slash path in
  let path :=
    if String.prefix "workspace/" path
    then drop (String.length "workspace/") path
    else path in
  let path := replace "../" "" path in
  path.

(** The path a cleaned path is used for, lines 139, 322 and 347:
    [f"{self.workspace_path}/{clean_path}"]. *)
Definition full_path (workspace_path path : string) : string :=
  (workspace_path ++ "/" ++ _clean_path path)%string.

End CodeInterpreterTool.

(** * The plan steps of [backend/agent/tools/planning_tool.py] *)

Module PlanningTool.

(** A step of a template, as the dict literals write it. *)
Definition pending (description : string) : pydict :=
  [("description", PStr description); ("status", PStr "pending")].

Definition website_steps : list pydict :=
  [pending "Analyze requirements and create project specifications";
   pending "Design database schema and data models";
   pending "Create wireframes and UI/UX design";
   pending "Implement frontend components and pages";
   pending "Implement backend API and business logic";
   pending "Integrate payment processing and security features";
   pending "Test functionality and fix bugs";
   pending "Deploy and configure production environment"].

Definition research_steps : list pydict :=
  [pending "Define research questions and objectives";
   pending "Gather relevant sources and materials";
   pending "Analyze information and identify key insights";
   pending "Organize findings into a coherent structure";
   pending "Write draft report with supporting evidence";
   pending "Create visualizations and supporting materials";
   pending "Review, edit, and finalize report"].

Definition data_steps : list pydict :=
  [pending "Define analysis objectives and questions";
   pending "Collect and import relevant data";
   pending "Clean and preprocess data";
   pending "Perform exploratory data analysis";
   pending "Apply statistical methods or machine learning";
   pending "Visualize results and key findings";
   pending "Interpret results and draw conclusions";
   pending "Document methodology and findings"].

Definition generic_steps : list pydict :=
  [pending "Define project scope and objectives";
   pending "Research and gather necessary information";
   pending "Develop initial approach and methodology";
   pending "Implement core functionality or content";
   pending "Test and validate results";
   pending "Refine and improve based on feedback";
   pending "Finalize and deliver completed work"].

(** [l[:n]] for an integer [n]: a negative [n] counts from the end. *)
Definition slice_to {A : Type} (n : Z) (l : list A) : list A :=
  if (n <? 0)%Z
  then firstn (Z.to_nat (Z.max 0 (Z.of_nat (length l) + n))) l
  else firstn (Z.to_nat n) l.

(** [d[key] = v]: the value of a key that is there is replaced, a new
    key comes last. *)
Fixpoint dict_set (key : string) (v : pyval) (d : pydict) : pydict :=
  match d with
  | [] => [(key, v)]
  | (k, x) :: rest =>
      if String.eqb k key then (k, v) :: rest else (k, x) :: dict_set key v rest
  end.

Section Steps.

(** [str.lower] *)
Variable lower : string -> string.

(** Lines 274 to 316: the template for the task. *)
Definition plan_template (task : string) : list pydict :=
  if contains "website" (lower task) then website_steps
  else if contains "research" (lower task) || contains "report" (lower task)
  then research_steps
  else if contains "data" (lower task) || contains "analysis" (lower task)
  then data_steps
  else generic_steps.

(** [_generate_plan_steps], lines 266 to 327; [timestamp] is what
    [_get_timestamp] returns. *)
Definition _generate_plan_steps (timestamp : string) (task : string) (num_steps : Z)
  : list pydict :=
  let steps := plan_template task in
  let steps :=
    if (Z.of_nat (length steps) >? num_steps)%Z
    then slice_to num_steps steps
    else steps in
  map (dict_set "created_at" (PStr timestamp)) steps.

End Steps.

(** Lower case of the letters A to Z; the other characters are kept. *)
Definition ascii_lower (c : ascii) : ascii :=
  let n := nat_of_ascii c in
  if ((65 <=? n)%nat && (n <=? 90)%nat)%bool then ascii_of_nat (n + 32) else c.

Fixpoint lower_ascii (s : string) : string :=
  match s with
  | EmptyString => EmptyString
  | String c rest => String (ascii_lower c) (lower_ascii rest)
  end.

(** ** The plan files *)

(** [ToolResult(output=...)] and [ToolResult(error=...)] *)
Inductive ToolResult : Type :=
| Output (output : string)
| Error (error : string).

(** How a call of a tool method ends: it returns a result, or an
    exception that no handler takes leaves it. *)
Inductive tool_outcome : Type :=
| Returns (r : ToolResult)
| Escapes (e : exn).

(** What the interpreter raises on a value read from a plan file. *)
Inductive fault : Type :=
| KeyError (key : pyval)      (* a key that a dict does not have *)
| IndexError                  (* an index out of range *)
| TypeError (v : pyval).      (* a value that does not have the operation *)

(** [v[key]] for a string [key] *)
Definition getitem_key (v : pyval) (key : string) : fault + pyval :=
  match v with
  | PDict d =>
      match dict_get key d with
      | Some x => inr x
      | None => inl (KeyError (PStr key))
      end
  | _ => inl (TypeError v)
  end.

(** [len(v)]; a dict read from JSON has no key twice, and a character
    of a string is one [ascii]. *)
Definition py_len (v : pyval) : fault + nat :=
  match v with
  | PList l => inr (length l)
  | PDict d => inr (length d)
  | PStr s => inr (String.length s)
  | _ => inl (TypeError v)
  end.

(** [v[i]] for an index [i] that is not negative *)
Definition getitem_index (v : pyval) (i : nat) : fault + pyval :=
  match v with
  | PList l =>
      match nth_error l i with
      | Some x => inr x
      | None => inl IndexError
      end
  | PStr s =>
      match String.get i s with
      | Some c => inr (PStr (String c EmptyString))
      | None => inl IndexError
      end
  | PDict d => inl (KeyError (PInt (Z.of_nat i)))
  | _ => inl (TypeError v)
  end.

(** [l[i] = x] as a new list *)
Fixpoint list_set {A : Type} (i : nat) (x : A) (l : list A) {struct l} : list A :=
  match l, i with
  | [], _ => []
  | _ :: rest, O => x :: rest
  | a :: rest, S i' => a :: list_set i' x rest
  end.

(** [str(n)] for an integer *)
Definition str_int (n : Z) : string := NilZero.string_of_int (Z.to_int n).

Definition plans_dir : string := "/workspace/.plans".

(** [f"{self.plans_dir}/{plan_name}.json"] *)
Definition plan_path (plan_name : string) : string :=
  (plans_dir ++ "/" ++ plan_name ++ ".json")%string.

Definition newline : string := String "010"%char EmptyString.

Section Plans.

Variable lower : string -> string.

(** The content of a file, and the two ways between a value and a
    content: [json.dumps(plan, indent=2).encode('utf-8')], and
    [json.loads(content.decode('utf-8'))] with [None] when either
    raises. *)
Variable bytes : Type.
Variable json_dumps : pyval -> bytes.
Variable json_loads : bytes -> option pyval.

(** [str(e)] for what the interpreter raises. *)
Variable fault_text : fault -> string.

(** The sandbox of the tool: what [_ensure_sandbox] raises, if anything;
    [fs.download_file], the files; what [fs.upload_file] and
    [exec.start] raise, if anything. *)
Record sandbox : Type := mkSandbox {
  _ensure_sandbox : option exn;
  download_file : string -> step bytes;
  upload_raises : option exn;
  exec_raises : option exn
}.

(** The sandbox after [fs.upload_file(path, content)]. *)
Definition upload_file (sb : sandbox) (path : string) (content : bytes) : sandbox :=
  mkSandbox (_ensure_sandbox sb)
            (fun p => if String.eqb p path then Normal content else download_file sb p)
            (upload_raises sb) (exec_raises sb).

(** The handler [except Exception as e: return self.fail_response(f"...{str(e)}")];
    the log line is left out. *)
Definition handled (prefix : string) (e : exn) : tool_outcome :=
  if is_Exception e then Returns (Error (prefix ++ exn_str e)%string) else Escapes e.

Definition faulted (prefix : string) (f : fault) : tool_outcome :=
  Returns (Error (prefix ++ fault_text f)%string).

(** [len(plan['steps'])] *)
Definition steps_len (plan : pyval) : fault + nat :=
  match getitem_key plan "steps" with
  | inl f => inl f
  | inr steps => py_len steps
  end.

Definition invalid_index (step_index : Z) (n : nat) : ToolResult :=
  Error ("Invalid step index: " ++ str_int step_index ++ ". Plan has "
         ++ str_int (Z.of_nat n) ++ " steps.")%string.

(** Lines 189 to 195 on the step, a dict: the three assignments. *)
Definition updated_step (timestamp status : string) (notes : option string)
  (plan_step : pydict) : pydict :=
  let plan_step := dict_set "status" (PStr status) plan_step in
  let plan_step := dict_set "updated_at" (PStr timestamp) plan_step in
  match notes with
  | Some n => if String.eqb n "" then plan_step else dict_set "notes" (PStr n) plan_step
  | None => plan_step
  end.

(** The plan after the step at index [k] of its list of steps was
    changed in place. *)
Definition with_step (plan : pyval) (k : nat) (plan_step : pydict) : pyval :=
  match plan with
  | PDict d =>
      match dict_get "steps" d with
      | Some (PList steps) =>
          PDict (dict_set "steps" (PList (list_set k (PDict plan_step) steps)) d)
      | _ => plan
      end
  | _ => plan
  end.

(** [update_plan_step], lines 166 to 205; [timestamp] is what
    [_get_timestamp] returns. *)
Definition update_plan_step (timestamp : string) (sb : sandbox)
  (plan_name : string) (step_index : Z) (status : string) (notes : option string)
  : sandbox * tool_outcome :=
  let failed := "Failed to update plan step: " in
  let not_found := Returns (Error ("Plan '" ++ plan_name ++ "' not found")%string) in
  match _ensure_sandbox sb with
  | Some e => (sb, handled failed e)
  | None =>
      match download_file sb (plan_path plan_name) with
      | Raise e => (sb, if is_Exception e then not_found else Escapes e)
      | Normal plan_content =>
          match json_loads plan_content with
          | None => (sb, not_found)
          | Some plan =>
              let out_of_range :=
                if (step_index <? 1)%Z then inr true
                else match steps_len plan with
                     | inl f => inl f
                     | inr n => inr (step_index >? Z.of_nat n)%Z
                     end in
              match out_of_range with
              | inl f => (sb, faulted failed f)
              | inr true =>
                  match steps_len plan with
                  | inl f => (sb, faulted failed f)
                  | inr n => (sb, Returns (invalid_index step_index n))
                  end
              | inr false =>
                  let k := Z.to_nat (step_index - 1) in
                  match getitem_key plan "steps" with
                  | inl f => (sb, faulted failed f)
                  | inr steps =>
                      match getitem_index steps k with
                      | inl f => (sb, faulted failed f)
                      | inr (PDict plan_step) =>
                          let plan := with_step plan k
                                        (updated_step timestamp status notes plan_step) in
                          match upload_raises sb with
                          | Some e => (sb, handled failed e)
                          | None =>
                              (upload_file sb (plan_path plan_name) (json_dumps plan),
                               Returns (Output ("Updated step " ++ str_int step_index
                                                ++ " of plan '" ++ plan_name
                                                ++ "' to status '" ++ status ++ "'")%string))
                          end
                      | inr other => (sb, faulted failed (TypeError other))
                      end
                  end
              end
          end
      end
  end.

(** The line of a step in the response of [create_plan]. *)
Definition created_line (i : nat) (plan_step : pydict) : string :=
  (str_int (Z.of_nat i + 1) ++ ". "
   ++ match dict_get "description" plan_step with
      | Some (PStr description) => description
      | _ => ""
      end ++ newline)%string.

Fixpoint created_lines (i : nat) (plan_steps : list pydict) : string :=
  match plan_steps with
  | [] => ""
  | plan_step :: rest => (created_line i plan_step ++ created_lines (S i) rest)%string
  end.

(** [create_plan], lines 69 to 119; [uuid_hex] is the [hex] of the first
    [uuid.uuid4()], [uuid_str] the [str] of the second, and the two
    timestamps are those of [_generate_plan_steps] and of the plan. *)
Definition create_plan (uuid_hex uuid_str step_timestamp plan_timestamp : string)
  (sb : sandbox) (task : string) (num_steps : Z) (plan_name : option string)
  (save_to_file : bool) : sandbox * tool_outcome :=
  let failed := "Failed to create plan: " in
  match _ensure_sandbox sb with
  | Some e => (sb, handled failed e)
  | None =>
      let plan_name :=
        match plan_name with
        | Some n => if String.eqb n "" then ("plan_" ++ substring 0 8 uuid_hex)%string else n
        | None => ("plan_" ++ substring 0 8 uuid_hex)%string
        end in
      match exec_raises sb with
      | Some e => (sb, handled failed e)
      | None =>
          let plan_steps := _generate_plan_steps lower step_timestamp task num_steps in
          let plan :=
            PDict [("id", PStr uuid_str); ("name", PStr plan_name); ("task", PStr task);
                   ("steps", PList (map PDict plan_steps));
                   ("created_at", PStr plan_timestamp); ("status", PStr "created")] in
          let response :=
            ("Created plan '" ++ plan_name ++ "' with "
             ++ str_int (Z.of_nat (length plan_steps)) ++ " steps:" ++ newline ++ newline
             ++ created_lines 0 plan_steps
             ++ if save_to_file
                then newline ++ "Plan saved to " ++ plans_dir ++ "/" ++ plan_name ++ ".json"
                else "")%string in
          if save_to_file then
            match upload_raises sb with
            | Some e => (sb, handled failed e)
            | None =>
                (upload_file sb (plan_path plan_name) (json_dumps plan),
                 Returns (Output response))
            end
          else (sb, Returns (Output response))
      end
  end.

End Plans.

(** Sample data: a sandbox without files in which nothing raises, with
    the values themselves as the content of the files. *)
Definition no_such_file : exn := mkExn true "file not found".

Definition empty_sandbox : sandbox pyval :=
  mkSandbox pyval None (fun _ => Raise no_such_file) None None.

Definition sample_fault_text (f : fault) : string :=
  match f with
  | KeyError _ => "key"
  | IndexError => "list index out of range"
  | TypeError _ => "type"
  end.

(** The sandbox after a plan of three steps was created in it. *)
Definition report_steps : list pydict :=
  _generate_plan_steps lower_ascii "2025-01-01T00:00:00" "Write a report" 3.

Definition report_plan : pydict :=
  [("id", PStr "9f1c2b7e-0000-4000-8000-000000000001"); ("name", PStr "q3");
   ("task", PStr "Write a report"); ("steps", PList (map PDict report_steps));
   ("created_at", PStr "2025-01-01T00:00:01"); ("status", PStr "created")].

Definition report_sandbox : sandbox pyval :=
  upload_file pyval empty_sandbox (plan_path "q3") (PDict report_plan).

End PlanningTool.

(** * The imports of [backend/agent/run.py] and of
    [backend/agent/tools/tool_registry_update.py] *)

Module Imports.





Section Environment.

(** The execution of the top level of a module: the exception it raises,
    if any. *)
Variable loads : string -> option exn.

(** Whether a module that is not under [agent/tools] binds a name. *)
Variable binds : string -> string -> bool.








(** The tool registry and its [register_tool], kept abstract, and the
    constructors of the tools: the exception one raises, if any. *)
Variable registry : Type.
Variable register_tool : string -> registry -> registry.
Variable construct : string -> option exn.




End Environment.

End Imports.

(** * The message check of [backend/agent/tools/chat_completion_tool.py] *)

Module ChatCompletionTool.

Section Validation.

(** [str(v)], as an f-string takes it. *)
Variable py_str : pyval -> string.

(** [msg['role'] not in ['system', 'user', 'assistant']], negated. *)
Definition role_allowed (role : pyval) : bool :=
  match role with
  | PStr r => existsb (String.eqb r) ["system"; "user"; "assistant"]
  | _ => false
  end.

(** The loop of lines 106 to 110: the error of the first message that is
    refused. *)
Fixpoint check_each (messages : list pyval) : option string :=
  match messages with
  | [] => None
  | msg :: rest =>
      match msg with
      | PDict d =>
          if negb (dict_mem "role" d) || negb (dict_mem "content" d) then
            Some "Each message must be a dictionary with 'role' and 'content' keys"
          else
            let role := dict_get_default "role" PNone d in
            if negb (role_allowed role) then
              Some ("Invalid role: " ++ py_str role
                    ++ ". Must be one of: system, user, assistant")%string
            else check_each rest
      | _ => Some "Each message must be a dictionary with 'role' and 'content' keys"
      end
  end.

(** Lines 102 to 110: the error the validation returns, if any. *)
Definition validate_messages (messages : pyval) : option string :=
  match messages with
  | PList l =>
      if negb (truthy messages) then Some "Messages must be a non-empty list"
      else check_each l
  | _ => Some "Messages must be a non-empty list"
  end.

(** [create_chat_completion], lines 89 to 178.  [rest] stands for lines
    112 to 175, the work on the database, the model and the files, which
    gets the model name the call settled on. *)
Definition create_chat_completion
  (_ensure_sandbox : option exn) (MODEL_TO_USE : string)
  (rest : string -> PlanningTool.tool_outcome)
  (messages : pyval) (model : option string) : PlanningTool.tool_outcome :=
  match _ensure_sandbox with
  | Some e => PlanningTool.handled "Failed to create chat completion: " e
  | None =>
      let model :=
        match model with
        | Some m => if String.eqb m "" then MODEL_TO_USE else m
        | None => MODEL_TO_USE
        end in
      match validate_messages messages with
      | Some error => PlanningTool.Returns (PlanningTool.Error error)
      | None => rest model
      end
  end.

End Validation.

(** The messages the validation lets through. *)
Definition well_formed_message (msg : pyval) : Prop :=
  exists d role,
    msg = PDict d
    /\ dict_get "role" d = Some (PStr role)
    /\ In role ["system"; "user"; "assistant"]
    /\ dict_mem "content" d = true.

End ChatCompletionTool.

(** ** Traces *)

Lemma yields_app (t1 t2 : list event) : yields (t1 ++ t2) = yields t1 ++ yields t2.
Proof. apply flat_map_app. Qed.

Lemma started_app (t1 t2 : list event) : started (t1 ++ t2) = started t1 ++ started t2.
Proof. apply flat_map_app. Qed.

Lemma billing_calls_app (t1 t2 : list event) :
  billing_calls (t1 ++ t2) = billing_calls t1 + billing_calls t2.
Proof. unfold billing_calls. now rewrite filter_app, length_app. Qed.

Lemma chunk_level_started (t : list event) :
  forallb chunk_level t = true -> started t = [].
Proof.
  induction t as [|ev t IH]; simpl; [reflexivity|].
  intros H. apply andb_true_iff in H as [Hev Ht].
  destruct ev; simpl in *; try discriminate; auto.
Qed.

Lemma chunk_level_billing (t : list event) :
  forallb chunk_level t = true -> billing_calls t = 0.
Proof.
  induction t as [|ev t IH]; simpl; [reflexivity|].
  intros H. apply andb_true_iff in H as [Hev Ht].
  destruct ev; simpl in *; try discriminate; auto.
Qed.

Lemma chunk_level_In (t : list event) (ev : event) :
  forallb chunk_level t = true -> In ev t -> chunk_level ev = true.
Proof. intros H Hin. rewrite forallb_forall in H. auto. Qed.

(** ** One chunk *)

Lemma status_not_assistant (v : option pyval) :
  py_eq_str v "status" = true -> py_eq_str v "assistant" = false.
Proof.
  destruct v as [[]|]; simpl; try discriminate.
  intros H. apply String.eqb_eq in H. now subst.
Qed.

Lemma has_marker_scan (assistant_text : string) :
  has_marker assistant_text = true <-> scan_markers assistant_text <> None.
Proof.
  unfold has_marker, scan_markers.
  destruct (contains "</ask>" assistant_text);
    destruct (contains "</complete>" assistant_text);
    destruct (contains "</web-browser-takeover>" assistant_text);
    simpl; split; intros H; congruence.
Qed.

Section Properties.

Variable json_loads : string -> option pyval.

Lemma error_chunk_no_marker (chunk : pyval) :
  is_error_chunk chunk = true -> chunk_marker json_loads chunk = None.
Proof.
  destruct chunk; simpl; try discriminate.
  intros H. apply andb_true_iff in H as [Hty _].
  unfold chunk_marker, assistant_text_of.
  now rewrite (status_not_assistant _ Hty).
Qed.

Lemma detect_markers_spec (d : pydict) (ltc : option string) :
  forallb chunk_level (fst (detect_markers json_loads d ltc)) = true
  /\ yields (fst (detect_markers json_loads d ltc)) = []
  /\ snd (detect_markers json_loads d ltc)
     = match inspect_content json_loads d with
       | Text (PStr assistant_text) =>
           match scan_markers assistant_text with
           | Some xml_tool => Some xml_tool
           | None => ltc
           end
       | _ => ltc
       end.
Proof.
  unfold detect_markers.
  destruct (inspect_content json_loads d) as [[]| |]; simpl; auto.
  destruct (scan_markers s); simpl; auto.
Qed.

(** A dict is always forwarded, and nothing is raised. *)
Lemma process_chunk_dict (st : run_state) (d : pydict) :
  exists evs,
    process_chunk json_loads st (PDict d)
    = (evs, Normal (mkState (record_marker json_loads (last_tool_call st) (PDict d))
                            (error_detected st || is_error_chunk (PDict d))))
    /\ forallb chunk_level evs = true
    /\ yields evs = [PDict d].
Proof.
  unfold process_chunk.
  destruct (is_error_chunk (PDict d)) eqn:Herr.
  - unfold record_marker. rewrite (error_chunk_no_marker _ Herr), orb_true_r.
    eexists. split; [reflexivity | split; reflexivity].
  - rewrite orb_false_r. unfold record_marker, chunk_marker, assistant_text_of.
    destruct (py_eq_str (dict_get "type" d) "assistant" && dict_mem "content" d).
    + destruct (detect_markers_spec d (last_tool_call st)) as (Hl & Hy & Hs).
      destruct (detect_markers json_loads d (last_tool_call st)) as [logs ltc].
      simpl in *. exists (logs ++ [EvYield (PDict d)]). split; [|split].
      * rewrite Hs. f_equal. f_equal. f_equal.
        destruct (inspect_content json_loads d) as [[]| |]; reflexivity.
      * rewrite forallb_app, Hl. reflexivity.
      * rewrite yields_app, Hy. reflexivity.
    + exists [EvYield (PDict d)]. split; [|split]; [|reflexivity|reflexivity].
      now destruct st.
Qed.

(** What is not a dict is not forwarded: [chunk.get] raises. *)
Lemma process_chunk_other (st : run_state) (chunk : pyval) :
  is_dict chunk = false ->
  process_chunk json_loads st chunk = ([], Raise (AttributeError_get chunk)).
Proof. destruct chunk; simpl; intros H; try discriminate; reflexivity. Qed.

(** ** One stream *)

Lemma consume_dicts (chunks : list pyval) :
  forallb is_dict chunks = true ->
  forall st, exists evs,
    consume json_loads st chunks = (evs, Normal (state_after json_loads st chunks))
    /\ forallb chunk_level evs = true
    /\ yields evs = chunks.
Proof.
  induction chunks as [|c chunks IH]; intros Hd st.
  - exists []. unfold state_after. simpl. rewrite orb_false_r. now destruct st.
  - simpl in Hd. apply andb_true_iff in Hd as [Hc Hd].
    destruct c; try discriminate.
    destruct (process_chunk_dict st d) as (evs & Hp & Hl & Hy).
    simpl. rewrite Hp.
    destruct (IH Hd (mkState (record_marker json_loads (last_tool_call st) (PDict d))
                             (error_detected st || is_error_chunk (PDict d))))
      as (evs' & Hc' & Hl' & Hy').
    rewrite Hc'. exists (evs ++ evs'). split; [|split].
    + unfold state_after. simpl. now rewrite orb_assoc.
    + now rewrite forallb_app, Hl, Hl'.
    + rewrite yields_app, Hy, Hy'. reflexivity.
Qed.

(** Whatever the chunks are, the events are those of the chunks, and
    what is raised is an [Exception]. *)
Lemma consume_level (chunks : list pyval) :
  forall st,
    forallb chunk_level (fst (consume json_loads st chunks)) = true
    /\ (forall e, snd (consume json_loads st chunks) = Raise e -> is_Exception e = true).
Proof.
  induction chunks as [|c chunks IH]; intros st; simpl.
  - split; [reflexivity | discriminate].
  - destruct (is_dict c) eqn:Hc.
    + destruct c; try discriminate.
      destruct (process_chunk_dict st d) as (evs & Hp & Hl & _).
      rewrite Hp.
      match goal with |- context [consume json_loads ?s chunks] =>
        destruct (IH s) as [Hl' He]; destruct (consume json_loads s chunks) as [evs' r]
      end.
      simpl in *. rewrite forallb_app, Hl, Hl'. auto.
    + rewrite (process_chunk_other st c Hc). simpl. split; [reflexivity|].
      intros e He. now inversion He.
Qed.

(** A stream that was consumed to its end held only dicts. *)
Lemma consume_normal_dicts (chunks : list pyval) :
  forall st st',
    snd (consume json_loads st chunks) = Normal st' ->
    forallb is_dict chunks = true.
Proof.
  induction chunks as [|c chunks IH]; intros st st' H; [reflexivity|].
  simpl in *. destruct (is_dict c) eqn:Hc.
  - destruct c; try discriminate.
    destruct (process_chunk_dict st d) as (evs & Hp & _).
    rewrite Hp in H.
    match type of H with context [consume json_loads ?s chunks] =>
      destruct (consume json_loads s chunks) as [evs' r] eqn:E
    end.
    simpl in H. eapply (IH _ st'). rewrite E. exact H.
  - rewrite (process_chunk_other st c Hc) in H. discriminate.
Qed.

Lemma iterate_level (r : response) :
  forallb chunk_level (fst (iterate json_loads r)) = true
  /\ (forall e, snd (iterate json_loads r) = Raise e ->
                is_Exception e = true
                \/ exists s, r = RespStream s /\ ending s = EndRaise e).
Proof.
  destruct r as [v|s]; simpl.
  - split; [reflexivity|]. intros e He. inversion He. now left.
  - destruct (consume_level (items s) initial_state) as [Hl He].
    destruct (consume json_loads initial_state (items s)) as [evs [st|e0]]; simpl in *.
    + destruct (ending s) eqn:Hend; simpl; split; auto; try discriminate.
      intros e' He'. inversion He'; subst. right. now exists s.
    + split; auto.
Qed.

Lemma iterate_normal (r : response) (st : run_state) :
  snd (iterate json_loads r) = Normal st ->
  exists s, r = RespStream s /\ ending s = EndNormal
            /\ yields (fst (iterate json_loads r)) = items s.
Proof.
  destruct r as [v|s]; simpl; [discriminate|].
  intros H. exists s.
  destruct (consume json_loads initial_state (items s)) as [evs [st0|e0]] eqn:E;
    simpl in *; [|discriminate].
  assert (Hd : forallb is_dict (items s) = true).
  { apply (consume_normal_dicts _ initial_state st0). now rewrite E. }
  destruct (consume_dicts _ Hd initial_state) as (evs' & Hc & _ & Hy).
  rewrite E in Hc. inversion Hc; subst.
  destruct (ending s); simpl in *; [auto | discriminate].
Qed.

(** ** One attempt *)

Variable w : world.

Ltac stop_cases :=
  cbv zeta;
  match goal with
  | |- context [if error_detected ?st then _ else _] =>
      destruct (error_detected st); [|destruct (stops_on (last_tool_call st))]
  end.

Ltac attempt_cases i :=
  unfold attempt;
  destruct (run_thread w i) as [r|e] eqn:Hrun;
  [ destruct (is_error_response r) eqn:Hresp;
    [ destruct r as [[]|]; try discriminate
    | pose proof (iterate_level r) as [Hlevel Hraise];
      pose proof (iterate_normal r) as Hnormal;
      destruct (iterate json_loads r) as [evs [st|e]];
      [ destruct (error_detected st); [|destruct (stops_on (last_tool_call st))]
      | destruct (is_Exception e) eqn:Hexc ] ]
  | destruct (is_Exception e) eqn:Hexc ];
  simpl in *.

Lemma attempt_started (i : nat) :
  started (fst (attempt json_loads w i)) = [i].
Proof.
  attempt_cases i; try reflexivity;
    try rewrite started_app; rewrite (chunk_level_started _ Hlevel); reflexivity.
Qed.

Lemma attempt_billing (i : nat) :
  billing_calls (fst (attempt json_loads w i)) = 0.
Proof.
  attempt_cases i; try reflexivity;
    pose proof (chunk_level_billing _ Hlevel) as Hb; unfold billing_calls in *;
    simpl; rewrite ?filter_app, ?length_app, Hb; reflexivity.
Qed.

(** What leaves an attempt unhandled was raised by the session, at its
    start or from its stream, and does not derive from [Exception]. *)
Lemma attempt_propagates (i : nat) (x : exn) :
  snd (attempt json_loads w i) = Propagate x ->
  is_Exception x = false
  /\ (run_thread w i = StartRaises x
      \/ exists s, run_thread w i = StartReturns (RespStream s)
                   /\ ending s = EndRaise x).
Proof.
  attempt_cases i; intros H; try discriminate; inversion H; subst.
  - split; [assumption|]. right.
    destruct (Hraise x eq_refl) as [He|(s & -> & Hend)]; [congruence|].
    now exists s.
  - split; [assumption | now left].
Qed.

(** An attempt that reaches the test of the loop has forwarded its whole
    stream and nothing else. *)
Lemma attempt_next_yields (i : nat) (b : bool) :
  snd (attempt json_loads w i) = NextTest b ->
  yields (fst (attempt json_loads w i)) = stream_items w i.
Proof.
  unfold stream_items.
  attempt_cases i; intros H; try discriminate;
    destruct (Hnormal st eq_refl) as (s & -> & _ & Hy); simpl;
    try rewrite yields_app; rewrite Hy; simpl; auto using app_nil_r.
Qed.

Lemma attempt_stream (i : nat) (s : stream) :
  run_thread w i = StartReturns (RespStream s) ->
  forallb is_dict (items s) = true ->
  exists evs,
    forallb chunk_level evs = true
    /\ yields evs = items s
    /\ attempt json_loads w i =
       match ending s with
       | EndNormal =>
           let st := state_after json_loads initial_state (items s) in
           if error_detected st then
             (EvRunThread i :: evs ++ [EvLog LogStopError], Break)
           else if stops_on (last_tool_call st) then
             (EvRunThread i :: evs ++ [EvLog (LogStopTool (last_tool_call st))],
              NextTest false)
           else (EvRunThread i :: evs, NextTest true)
       | EndRaise e =>
           if is_Exception e then
             (EvRunThread i :: evs ++ [EvLog (LogError (streaming_error_msg e));
                                       EvYield (status_error (streaming_error_msg e))],
              Break)
           else (EvRunThread i :: evs, Propagate e)
       end.
Proof.
  intros Hrun Hd.
  destruct (consume_dicts _ Hd initial_state) as (evs & Hc & Hl & Hy).
  exists evs. split; [assumption|]. split; [assumption|].
  unfold attempt. rewrite Hrun. simpl. rewrite Hc.
  destruct (ending s); reflexivity.
Qed.

(** The chunks an attempt forwards: those of its stream, then at most one
    of the loop's own, whose status is ["error"]. *)
Lemma attempt_yields (i : nat) :
  forallb is_dict (stream_items w i) = true ->
  exists extra,
    yields (fst (attempt json_loads w i)) = stream_items w i ++ extra
    /\ length extra <= 1
    /\ forallb has_error_status extra = true.
Proof.
  unfold stream_items. intros Hd.
  destruct (run_thread w i) as [[v|s]|e] eqn:Hrun.
  - unfold attempt. rewrite Hrun.
    destruct (is_error_response (RespValue v)) eqn:Hresp.
    + destruct v; try discriminate. simpl in Hresp.
      apply andb_true_iff in Hresp as [_ Hst].
      exists [PDict d]. simpl. rewrite Hst. auto.
    + simpl. eexists. split; [reflexivity|]. simpl. auto.
  - destruct (attempt_stream i s Hrun Hd) as (evs & Hl & Hy & ->).
    destruct (ending s) as [|e].
    + exists []. rewrite app_nil_r.
      stop_cases; simpl;
        try rewrite yields_app; rewrite Hy; simpl; auto using app_nil_r.
    + destruct (is_Exception e); simpl.
      * eexists. rewrite yields_app, Hy. simpl. split; [reflexivity|]. auto.
      * exists []. rewrite app_nil_r. auto.
  - unfold attempt. rewrite Hrun.
    destruct (is_Exception e); simpl.
    + eexists. split; [reflexivity|]. simpl. auto.
    + exists []. auto.
Qed.

(** A stream of dicts that ends normally is forwarded as it is. *)
Lemma attempt_clean (i : nat) (s : stream) :
  run_thread w i = StartReturns (RespStream s) ->
  ending s = EndNormal ->
  forallb is_dict (items s) = true ->
  yields (fst (attempt json_loads w i)) = items s.
Proof.
  intros Hrun Hend Hd.
  destruct (attempt_stream i s Hrun Hd) as (evs & Hl & Hy & ->).
  rewrite Hend.
  stop_cases; simpl;
    try rewrite yields_app; rewrite Hy; simpl; auto using app_nil_r.
Qed.

(** ** The loop *)

Lemma while_loop_next (n i : nat) :
  snd (attempt json_loads w i) = NextTest true ->
  while_loop json_loads w (S n) i
  = (fst (attempt json_loads w i) ++ fst (while_loop json_loads w n (S i)),
     snd (while_loop json_loads w n (S i))).
Proof.
  simpl. destruct (attempt json_loads w i) as [evs c]. simpl. intros ->.
  now destruct (while_loop json_loads w n (S i)).
Qed.

Lemma while_loop_stop (n i : nat) :
  snd (attempt json_loads w i) = Break
  \/ snd (attempt json_loads w i) = NextTest false ->
  while_loop json_loads w (S n) i = (fst (attempt json_loads w i), Returned).
Proof.
  simpl. destruct (attempt json_loads w i) as [evs c]. simpl.
  now intros [-> | ->].
Qed.

Lemma while_loop_raise (n i : nat) (e : exn) :
  snd (attempt json_loads w i) = Propagate e ->
  while_loop json_loads w (S n) i = (fst (attempt json_loads w i), Raised e).
Proof.
  simpl. destruct (attempt json_loads w i) as [evs c]. simpl. now intros ->.
Qed.

Ltac loop_cases n i :=
  let Hc := fresh "Hc" in
  destruct (snd (attempt json_loads w i)) as [|[|]|?] eqn:Hc;
  [ rewrite (while_loop_stop n i (or_introl Hc))
  | rewrite (while_loop_next n i Hc)
  | rewrite (while_loop_stop n i (or_intror Hc))
  | rewrite (while_loop_raise n i _ Hc) ];
  cbn [fst snd].

Lemma while_loop_billing (fuel : nat) :
  forall i, billing_calls (fst (while_loop json_loads w fuel i)) = 0.
Proof.
  induction fuel as [|n IH]; intros i; [reflexivity|].
  loop_cases n i; rewrite ?billing_calls_app, ?IH, attempt_billing; reflexivity.
Qed.

(** The first attempt of the loop is attempt [i]. *)
Lemma while_loop_started (n i : nat) :
  exists rest, started (fst (while_loop json_loads w (S n) i)) = i :: rest.
Proof.
  loop_cases n i; rewrite ?started_app, attempt_started; eexists; reflexivity.
Qed.

(** An exception leaves the loop only if it left an attempt. *)
Lemma while_loop_raised (fuel : nat) (e : exn) :
  forall i,
    snd (while_loop json_loads w fuel i) = Raised e ->
    exists j, snd (attempt json_loads w j) = Propagate e.
Proof.
  induction fuel as [|n IH]; intros i; [discriminate|].
  loop_cases n i; intros H; try discriminate.
  - now apply (IH (S i)).
  - inversion H; subst. now exists i.
Qed.

Lemma produced_app (l1 l2 : list nat) :
  produced w (l1 ++ l2) = produced w l1 ++ produced w l2.
Proof. apply flat_map_app. Qed.

Lemma produced_one (i : nat) : produced w [i] = stream_items w i.
Proof. unfold produced. simpl. apply app_nil_r. Qed.

(** The chunks the loop forwards: those of the streams of its attempts,
    then at most one of its own. *)
Lemma while_loop_yields (fuel : nat) :
  streams_of_dicts w ->
  forall i, exists extra,
    yields (fst (while_loop json_loads w fuel i))
    = produced w (started (fst (while_loop json_loads w fuel i))) ++ extra
    /\ length extra <= 1
    /\ forallb has_error_status extra = true.
Proof.
  intros Hd. induction fuel as [|n IH]; intros i.
  - exists []. simpl. auto.
  - destruct (attempt_yields i (Hd i)) as (extra & Hy & Hlen & Herr).
    loop_cases n i; rewrite ?started_app, ?yields_app, ?produced_app,
      attempt_started, produced_one; try (exists extra; now auto).
    destruct (IH (S i)) as (extra' & Hy' & Hlen' & Herr').
    exists extra'. rewrite Hy', (attempt_next_yields i true Hc), app_assoc. auto.
Qed.

(** When every session gives a stream that ends normally, the loop adds
    nothing of its own. *)
Lemma while_loop_clean (fuel : nat) :
  streams_of_dicts w ->
  (forall i, exists s, run_thread w i = StartReturns (RespStream s)
                       /\ ending s = EndNormal) ->
  forall i,
    yields (fst (while_loop json_loads w fuel i))
    = produced w (started (fst (while_loop json_loads w fuel i))).
Proof.
  intros Hd Hclean. induction fuel as [|n IH]; intros i; [reflexivity|].
  assert (Hy : yields (fst (attempt json_loads w i)) = stream_items w i).
  { destruct (Hclean i) as (s & Hrun & Hend).
    pose proof (Hd i) as Hdi. unfold stream_items in *. rewrite Hrun in *.
    now apply attempt_clean. }
  loop_cases n i; rewrite ?started_app, ?yields_app, ?produced_app,
    attempt_started, produced_one, ?IH; now rewrite Hy.
Qed.

(** An attempt whose stream raises an [Exception] is the last one: the run
    returns, and the synthesized error closes the sequence. *)
Lemma while_loop_stream_raise (i : nat) (s : stream) (e : exn) :
  run_thread w i = StartReturns (RespStream s) ->
  forallb is_dict (items s) = true ->
  ending s = EndRaise e ->
  is_Exception e = true ->
  forall fuel j,
    In i (started (fst (while_loop json_loads w fuel j))) ->
    snd (while_loop json_loads w fuel j) = Returned
    /\ yields (fst (while_loop json_loads w fuel j))
       = produced w (started (fst (while_loop json_loads w fuel j)))
         ++ [status_error (streaming_error_msg e)].
Proof.
  intros Hrun Hd Hend Hexc.
  destruct (attempt_stream i s Hrun Hd) as (evs & Hl & Hy & Hatt).
  rewrite Hend, Hexc in Hatt.
  assert (Hsi : stream_items w i = items s).
  { unfold stream_items. now rewrite Hrun. }
  induction fuel as [|n IH]; intros j Hin; [contradiction|].
  destruct (Nat.eq_dec i j) as [<-|Hne].
  - rewrite (while_loop_stop n i) by (rewrite Hatt; now left).
    rewrite Hatt. cbn [fst snd]. split; [reflexivity|].
    cbn [started flat_map]. rewrite <- app_comm_cons.
    change (flat_map _ (evs ++ ?l)) with (started (evs ++ l)).
    rewrite started_app, (chunk_level_started _ Hl). simpl.
    change (flat_map _ (evs ++ ?l)) with (yields (evs ++ l)).
    rewrite yields_app, Hy, app_nil_r. unfold stream_items. now rewrite Hrun.
  - revert Hin. loop_cases n j; rewrite ?started_app, attempt_started;
      intros Hin; try (destruct Hin as [Hin|[]]; congruence).
    apply in_app_or in Hin. destruct Hin as [[Hin|[]]|Hin]; [congruence|].
    destruct (IH (S j) Hin) as [Ho Hys]. split; [assumption|].
    rewrite yields_app, Hys, (attempt_next_yields j true Hc).
    now rewrite produced_app, produced_one, app_assoc.
Qed.

(** An attempt the loop starts is run as the loop entered at that attempt
    runs it: what is shown of [while_loop] from attempt [i] on holds of
    every run that starts attempt [i]. *)
Lemma while_loop_reaches (i : nat) :
  forall fuel j,
    In i (started (fst (while_loop json_loads w fuel j))) ->
    exists pre n,
      while_loop json_loads w fuel j
      = (pre ++ fst (while_loop json_loads w (S n) i),
         snd (while_loop json_loads w (S n) i)).
Proof.
  induction fuel as [|n IH]; intros j Hin; [contradiction|].
  destruct (Nat.eq_dec i j) as [<-|Hne].
  - exists [], n. now destruct (while_loop json_loads w (S n) i).
  - revert Hin. loop_cases n j; rewrite ?started_app, attempt_started;
      intros Hin; try (destruct Hin as [Hin|[]]; congruence).
    apply in_app_or in Hin. destruct Hin as [[Hin|[]]|Hin]; [congruence|].
    destruct (IH (S j) Hin) as (pre & m & ->). cbn [fst snd].
    exists (fst (attempt json_loads w j) ++ pre), m. now rewrite app_assoc.
Qed.

(** A chunk that is not a dict ends the attempt: it is not forwarded, and
    the synthesized error takes its place. *)
Lemma non_dict_chunk_stops (i n : nat) (chunk : pyval) (rest : list pyval)
  (tail : stream_end) :
  run_thread w i = StartReturns (RespStream (mkStream (chunk :: rest) tail)) ->
  is_dict chunk = false ->
  while_loop json_loads w (S n) i
  = ([EvRunThread i;
      EvLog (LogError (streaming_error_msg (AttributeError_get chunk)));
      EvYield (status_error (streaming_error_msg (AttributeError_get chunk)))],
     Returned).
Proof.
  intros Hrun Hc.
  assert (Hatt : attempt json_loads w i
                 = ([EvRunThread i;
                     EvLog (LogError (streaming_error_msg (AttributeError_get chunk)));
                     EvYield (status_error (streaming_error_msg (AttributeError_get chunk)))],
                    Break)).
  { unfold attempt. rewrite Hrun. simpl.
    now rewrite (process_chunk_other initial_state chunk Hc). }
  rewrite (while_loop_stop n i) by (rewrite Hatt; now left).
  now rewrite Hatt.
Qed.

(** ** The whole run *)

(** The three ways through the lines before the loop: the loop is entered,
    an exception is raised, or the credit gate closes the run. *)
Lemma run_agent_cases (user_id : option string) (fuel : nat) :
  (exists pre,
      run_agent json_loads w user_id fuel
      = (pre ++ fst (while_loop json_loads w fuel 0),
         snd (while_loop json_loads w fuel 0))
      /\ yields pre = [] /\ started pre = [] /\ billing_calls pre <= 1)
  \/ (exists pre e,
        run_agent json_loads w user_id fuel = (pre, Raised e)
        /\ yields pre = [] /\ started pre = [] /\ billing_calls pre <= 1
        /\ ~ setup_completes w user_id)
  \/ (exists u billing_status has_credits,
        user_id_given user_id = Some u
        /\ check_billing_status w = BillingReturns billing_status
        /\ dict_get "has_credits" billing_status = Some has_credits
        /\ truthy has_credits = false
        /\ run_agent json_loads w user_id fuel
           = ([EvBilling u; EvYield credits_error], Returned)).
Proof.
  unfold run_agent, setup_then, setup_completes.
  destruct (user_id_given user_id) as [u|].
  - destruct (check_billing_status w) as [billing_status|e] eqn:Hb.
    + destruct (dict_get "has_credits" billing_status) as [has_credits|] eqn:Hk.
      * destruct (truthy has_credits) eqn:Ht; simpl.
        -- destruct (tool_setup w) as [e|] eqn:Hs.
           ++ right. left. exists [EvBilling u], e. simpl.
              repeat split; auto. intros (_ & H & _). discriminate.
           ++ destruct (RAPID_API_KEY w) eqn:Hr.
              ** right. left. exists [EvBilling u], NameError_DataProvidersTool.
                 simpl. repeat split; auto. intros (_ & _ & H). discriminate.
              ** left. exists [EvBilling u].
                 destruct (while_loop json_loads w fuel 0). simpl. auto.
        -- right. right. exists u, billing_status, has_credits. auto.
      * right. left. exists [EvBilling u], KeyError_has_credits. simpl.
        repeat split; auto.
        intros ([H|(bs & v & H1 & H2)] & _); [discriminate|].
        inversion H1; subst. congruence.
    + right. left. exists [EvBilling u], e. simpl. repeat split; auto.
      intros ([H|(bs & v & H1 & H2)] & _); discriminate.
  - destruct (tool_setup w) as [e|] eqn:Hs.
    + right. left. exists [], e. simpl. repeat split; auto.
      intros (_ & H & _). discriminate.
    + destruct (RAPID_API_KEY w) eqn:Hr.
      * right. left. exists [], NameError_DataProvidersTool. simpl.
        repeat split; auto. intros (_ & _ & H). discriminate.
      * left. exists []. simpl.
        destruct (while_loop json_loads w fuel 0). simpl. auto.
Qed.

(** ** Exception containment *)

(** C1, amended.  When nothing raises before the loop and what the
    sessions raise derives from [Exception], no exception leaves
    [run_agent]; and when the stream of an attempt of the run raises
    partway, the run returns and the caller receives the chunks of the
    streams followed by exactly one synthesized status/error fragment,
    the last item of the sequence. *)
Theorem exceptions_contained_in_loop (user_id : option string) (fuel : nat) :
  setup_completes w user_id ->
  raises_only_Exception w ->
  (forall e, snd (run_agent json_loads w user_id fuel) <> Raised e)
  /\ (forall i s e,
        In i (started (fst (run_agent json_loads w user_id fuel))) ->
        run_thread w i = StartReturns (RespStream s) ->
        forallb is_dict (items s) = true ->
        ending s = EndRaise e ->
        snd (run_agent json_loads w user_id fuel) = Returned
        /\ yields (fst (run_agent json_loads w user_id fuel))
           = produced w (started (fst (run_agent json_loads w user_id fuel)))
             ++ [status_error (streaming_error_msg e)]).
Proof.
  intros Hsetup [Hstart Hstream].
  destruct (run_agent_cases user_id fuel)
    as [(pre & -> & Hy & Hs & _)
       |[(pre & e0 & _ & _ & _ & _ & Hno)
        |(u & bs & v & _ & _ & _ & _ & ->)]];
    [|contradiction|]; cbn [fst snd].
  - split.
    + intros e He. apply while_loop_raised in He as (j & Hj).
      apply attempt_propagates in Hj as (Hne & [Hj|(s & Hj & Hend)]).
      * rewrite (Hstart _ _ Hj) in Hne. discriminate.
      * rewrite (Hstream _ _ _ Hj Hend) in Hne. discriminate.
    + intros i s e Hin Hrun Hd Hend.
      rewrite started_app, Hs in *. rewrite yields_app, Hy. simpl in *.
      apply (while_loop_stream_raise i s e); auto.
      exact (Hstream _ _ _ Hrun Hend).
  - split; [discriminate|]. intros i s e [].
Qed.

(** ** Ordering *)

(** C2, amended.  When the streams hold dicts, the chunks the caller
    receives are the chunks of the streams of the attempts, attempt after
    attempt and in order, followed by at most one fragment of the loop's
    own, whose status is ["error"]; in a run without failure they are the
    chunks of the streams and nothing else. *)
Theorem yields_follow_streams (user_id : option string) (fuel : nat) :
  streams_of_dicts w ->
  (exists extra,
      yields (fst (run_agent json_loads w user_id fuel))
      = produced w (started (fst (run_agent json_loads w user_id fuel))) ++ extra
      /\ length extra <= 1
      /\ forallb has_error_status extra = true)
  /\ (failure_free w user_id ->
      yields (fst (run_agent json_loads w user_id fuel))
      = produced w (started (fst (run_agent json_loads w user_id fuel)))).
Proof.
  intros Hd.
  destruct (run_agent_cases user_id fuel)
    as [(pre & -> & Hy & Hs & _)
       |[(pre & e0 & -> & Hy & Hs & _ & Hno)
        |(u & bs & v & Hu & Hb & Hk & Ht & ->)]];
    cbn [fst snd].
  - rewrite started_app, yields_app, Hs, Hy. simpl. split.
    + apply (while_loop_yields fuel Hd).
    + intros (_ & _ & _ & Hclean). now apply while_loop_clean.
  - rewrite Hy, Hs. split.
    + exists []. simpl. auto.
    + intros (Hgate & Hsetup & Hkey & _). exfalso. apply Hno.
      split; [|auto].
      destruct Hgate as [Hg|(bs & v & H1 & H2 & _)]; [now left|].
      right. now exists bs, v.
  - split.
    + exists [credits_error]. simpl. auto.
    + intros ([Hg|(bs' & v' & H1 & H2 & H3)] & _); [congruence|].
      rewrite Hb in H1. inversion H1; subst. congruence.
Qed.

(** ** The credit gate *)

(** C5.  The billing check is called at most once in a run; when it is
    made and reports no credits, the caller receives the credits error, a
    status/error fragment, and nothing else, no model session is started,
    and the run is over. *)
Theorem credit_gate_once (user_id : option string) (fuel : nat) :
  billing_calls (fst (run_agent json_loads w user_id fuel)) <= 1
  /\ (forall u billing_status has_credits,
        user_id_given user_id = Some u ->
        check_billing_status w = BillingReturns billing_status ->
        dict_get "has_credits" billing_status = Some has_credits ->
        truthy has_credits = false ->
        yields (fst (run_agent json_loads w user_id fuel)) = [credits_error]
        /\ is_error_chunk credits_error = true
        /\ started (fst (run_agent json_loads w user_id fuel)) = []
        /\ snd (run_agent json_loads w user_id fuel) = Returned).
Proof.
  split.
  - destruct (run_agent_cases user_id fuel)
      as [(pre & -> & _ & _ & Hb)
         |[(pre & e0 & -> & _ & _ & Hb & _)
          |(u & bs & v & _ & _ & _ & _ & ->)]];
      cbn [fst snd]; auto.
    now rewrite billing_calls_app, while_loop_billing, Nat.add_0_r.
  - intros u bs v Hu Hb Hk Ht. unfold run_agent.
    rewrite Hu, Hb, Hk, Ht. simpl. auto.
Qed.

Lemma attempt_with_billing (b : billing_outcome) (i : nat) :
  attempt json_loads (with_billing b w) i = attempt json_loads w i.
Proof. reflexivity. Qed.

Lemma while_loop_with_billing (b : billing_outcome) (fuel : nat) :
  forall i,
    while_loop json_loads (with_billing b w) fuel i = while_loop json_loads w fuel i.
Proof.
  induction fuel as [|n IH]; intros i; [reflexivity|].
  simpl. rewrite attempt_with_billing, IH. reflexivity.
Qed.

(** C10.  Without a user identifier the billing check is not called, the
    run is the same whatever the check would have answered, and, the tools
    being set up, it is the loop itself: the first model session is
    started. *)
Theorem no_user_id_skips_gate (fuel : nat) :
  billing_calls (fst (run_agent json_loads w None fuel)) = 0
  /\ (forall b,
        run_agent json_loads (with_billing b w) None fuel
        = run_agent json_loads w None fuel)
  /\ (tool_setup w = None ->
      RAPID_API_KEY w = false ->
      run_agent json_loads w None fuel = while_loop json_loads w fuel 0
      /\ (0 < fuel ->
          exists rest,
            started (fst (run_agent json_loads w None fuel)) = 0 :: rest)).
Proof.
  unfold run_agent, setup_then. simpl. split; [|split].
  - destruct (tool_setup w); [reflexivity|].
    destruct (RAPID_API_KEY w); [reflexivity|]. apply while_loop_billing.
  - intros b. now rewrite while_loop_with_billing.
  - intros -> ->. split; [reflexivity|].
    intros Hfuel. destruct fuel as [|n]; [lia|]. apply while_loop_started.
Qed.

(** ** Session start *)

(** C7.  A session that does not start ends the run at that attempt,
    whatever the number of attempts allowed: when [run_thread] returns a
    dict whose status is ["error"], that dict is the one fragment
    forwarded; when it raises an [Exception], one synthesized status/error
    fragment with the message of the exception is.  No further session is
    started. *)
Theorem start_failure_stops (i n : nat) :
  (forall d,
      run_thread w i = StartReturns (RespValue (PDict d)) ->
      dict_get "status" d = Some (PStr "error") ->
      yields (fst (while_loop json_loads w (S n) i)) = [PDict d]
      /\ has_error_status (PDict d) = true
      /\ started (fst (while_loop json_loads w (S n) i)) = [i]
      /\ snd (while_loop json_loads w (S n) i) = Returned)
  /\ (forall e,
        run_thread w i = StartRaises e ->
        is_Exception e = true ->
        yields (fst (while_loop json_loads w (S n) i))
        = [status_error (thread_error_msg e)]
        /\ is_error_chunk (status_error (thread_error_msg e)) = true
        /\ started (fst (while_loop json_loads w (S n) i)) = [i]
        /\ snd (while_loop json_loads w (S n) i) = Returned).
Proof.
  split.
  - intros d Hrun Hst.
    assert (Hatt : attempt json_loads w i
                   = ([EvRunThread i;
                       EvLog (LogErrorResponse
                                (dict_get_default "message" (PStr "Unknown error") d));
                       EvYield (PDict d)], Break)).
    { unfold attempt. rewrite Hrun. simpl. unfold dict_mem. now rewrite Hst. }
    rewrite (while_loop_stop n i) by (rewrite Hatt; now left).
    rewrite Hatt. simpl. rewrite Hst. auto.
  - intros e Hrun Hexc.
    assert (Hatt : attempt json_loads w i
                   = ([EvRunThread i; EvLog (LogError (thread_error_msg e));
                       EvYield (status_error (thread_error_msg e))], Break)).
    { unfold attempt. now rewrite Hrun, Hexc. }
    rewrite (while_loop_stop n i) by (rewrite Hatt; now left).
    rewrite Hatt. simpl. auto.
Qed.

(** ** In-stream errors *)

Lemma error_detected_after (chunks : list pyval) (k : nat) (chunk : pyval) :
  nth_error chunks k = Some chunk ->
  is_error_chunk chunk = true ->
  error_detected (state_after json_loads initial_state chunks) = true.
Proof.
  intros Hk Herr. simpl. apply existsb_exists. exists chunk.
  split; [|assumption]. now apply nth_error_In with k.
Qed.

(** C3.  When a status/error chunk stands at position [k] of the stream of
    attempt [i], every chunk of that stream is forwarded, those after
    position [k] too; attempt [i] is the only one started, whatever the
    number of attempts allowed; the stop on a recorded tool is never
    taken; and when the stream ends normally the caller receives the
    stream and nothing else, the run returns, and its last step is the
    stop on the error. *)
Theorem error_drains_then_stops (i k n : nat) (s : stream) (chunk : pyval) :
  run_thread w i = StartReturns (RespStream s) ->
  forallb is_dict (items s) = true ->
  nth_error (items s) k = Some chunk ->
  is_error_chunk chunk = true ->
  (exists extra,
      yields (fst (while_loop json_loads w (S n) i)) = items s ++ extra)
  /\ started (fst (while_loop json_loads w (S n) i)) = [i]
  /\ (forall x, ~ In (EvLog (LogStopTool x)) (fst (while_loop json_loads w (S n) i)))
  /\ (ending s = EndNormal ->
      yields (fst (while_loop json_loads w (S n) i)) = items s
      /\ last (fst (while_loop json_loads w (S n) i)) (EvRunThread i)
         = EvLog LogStopError
      /\ snd (while_loop json_loads w (S n) i) = Returned).
Proof.
  intros Hrun Hd Hk Herr.
  destruct (attempt_stream i s Hrun Hd) as (evs & Hl & Hy & Hatt).
  cbv zeta in Hatt. rewrite (error_detected_after _ _ _ Hk Herr) in Hatt.
  assert (Hnot : forall x, ~ In (EvLog (LogStopTool x)) evs).
  { intros x Hin. apply (chunk_level_In _ _ Hl) in Hin. discriminate. }
  destruct (ending s) as [|e] eqn:Hend; [|destruct (is_Exception e) eqn:Hexc].
  - rewrite (while_loop_stop n i) by (rewrite Hatt; now left).
    rewrite Hatt. cbn [fst snd].
    assert (Hys : yields (EvRunThread i :: evs ++ [EvLog LogStopError]) = items s).
    { change (yields (EvRunThread i :: ?l)) with (yields l).
      rewrite yields_app, Hy. apply app_nil_r. }
    repeat split.
    + exists []. now rewrite app_nil_r.
    + change (started (EvRunThread i :: ?l)) with (i :: started l).
      now rewrite started_app, (chunk_level_started _ Hl).
    + intros x [Hx|Hx]; [discriminate|].
      apply in_app_or in Hx as [Hx|[Hx|[]]]; [now apply (Hnot x)|discriminate].
    + assumption.
    + rewrite app_comm_cons. apply last_last.
  - rewrite (while_loop_stop n i) by (rewrite Hatt; now left).
    rewrite Hatt. cbn [fst snd]. repeat split; try discriminate.
    + eexists. change (yields (EvRunThread i :: ?l)) with (yields l).
      rewrite yields_app, Hy. reflexivity.
    + change (started (EvRunThread i :: ?l)) with (i :: started l).
      now rewrite started_app, (chunk_level_started _ Hl).
    + intros x [Hx|Hx]; [discriminate|].
      apply in_app_or in Hx as [Hx|[Hx|[Hx|[]]]];
        [now apply (Hnot x)|discriminate|discriminate].
  - rewrite (while_loop_raise n i e) by (now rewrite Hatt).
    rewrite Hatt. cbn [fst snd]. repeat split; try discriminate.
    + exists []. change (yields (EvRunThread i :: ?l)) with (yields l).
      now rewrite Hy, app_nil_r.
    + change (started (EvRunThread i :: ?l)) with (i :: started l).
      now rewrite (chunk_level_started _ Hl).
    + intros x [Hx|Hx]; [discriminate | now apply (Hnot x)].
Qed.

(** ** Termination markers *)

Lemma scan_markers_stops (assistant_text xml_tool : string) :
  scan_markers assistant_text = Some xml_tool ->
  stops_on (Some xml_tool) = true.
Proof.
  unfold scan_markers.
  destruct (contains "</ask>" assistant_text);
    destruct (contains "</complete>" assistant_text);
    destruct (contains "</web-browser-takeover>" assistant_text);
    simpl; intros H; inversion H; reflexivity.
Qed.

Lemma chunk_marker_stops (chunk : pyval) (xml_tool : string) :
  chunk_marker json_loads chunk = Some xml_tool ->
  stops_on (Some xml_tool) = true.
Proof.
  unfold chunk_marker. destruct (assistant_text_of json_loads chunk); [|discriminate].
  apply scan_markers_stops.
Qed.

Lemma marks_text (chunk : pyval) :
  marks json_loads chunk = true
  <-> exists assistant_text,
        assistant_text_of json_loads chunk = Some assistant_text
        /\ has_marker assistant_text = true.
Proof.
  unfold marks, chunk_marker.
  destruct (assistant_text_of json_loads chunk) as [t|].
  - split.
    + intros H. exists t. split; [reflexivity|]. apply has_marker_scan.
      destruct (scan_markers t); congruence.
    + intros (t' & Ht & Hm). inversion Ht; subst.
      apply has_marker_scan in Hm. now destruct (scan_markers t').
  - split; [discriminate|]. intros (t & Ht & _). discriminate.
Qed.

(** A recorded tool stays recorded, and every recorded tool stops. *)
Lemma stops_on_after (chunks : list pyval) :
  forall ltc,
    stops_on (fold_left (record_marker json_loads) chunks ltc)
    = stops_on ltc || existsb (marks json_loads) chunks.
Proof.
  induction chunks as [|c chunks IH]; intros ltc; simpl.
  - now rewrite orb_false_r.
  - rewrite IH. unfold record_marker, marks.
    destruct (chunk_marker json_loads c) as [m|] eqn:Hm.
    + rewrite (chunk_marker_stops _ _ Hm). simpl. now rewrite orb_true_r.
    + reflexivity.
Qed.

Lemma fold_no_marker (chunks : list pyval) :
  forallb (fun c => negb (marks json_loads c)) chunks = true ->
  forall ltc, fold_left (record_marker json_loads) chunks ltc = ltc.
Proof.
  induction chunks as [|c chunks IH]; intros H ltc; [reflexivity|].
  simpl in *. apply andb_true_iff in H as [Hc H]. rewrite (IH H).
  unfold record_marker, marks in *.
  now destruct (chunk_marker json_loads c).
Qed.

(** C4.  An attempt whose stream ends normally and holds no error chunk:
    when the decoded text of one of its assistant chunks holds a closing
    tag, the run returns after this attempt, having forwarded the stream,
    whatever the number of attempts allowed; when none does, the loop goes
    on with the next attempt. *)
Theorem marker_stops_else_continues (i : nat) (s : stream) :
  run_thread w i = StartReturns (RespStream s) ->
  ending s = EndNormal ->
  forallb is_dict (items s) = true ->
  existsb is_error_chunk (items s) = false ->
  ((exists chunk assistant_text,
       In chunk (items s)
       /\ assistant_text_of json_loads chunk = Some assistant_text
       /\ has_marker assistant_text = true) ->
   forall n,
     yields (fst (while_loop json_loads w (S n) i)) = items s
     /\ started (fst (while_loop json_loads w (S n) i)) = [i]
     /\ snd (while_loop json_loads w (S n) i) = Returned)
  /\ ((forall chunk assistant_text,
         In chunk (items s) ->
         assistant_text_of json_loads chunk = Some assistant_text ->
         has_marker assistant_text = false) ->
      forall n,
        while_loop json_loads w (S n) i
        = (fst (attempt json_loads w i) ++ fst (while_loop json_loads w n (S i)),
           snd (while_loop json_loads w n (S i)))
        /\ yields (fst (attempt json_loads w i)) = items s
        /\ exists rest,
             started (fst (while_loop json_loads w (S (S n)) i)) = i :: S i :: rest).
Proof.
  intros Hrun Hend Hd Hnoerr.
  destruct (attempt_stream i s Hrun Hd) as (evs & Hl & Hy & Hatt).
  rewrite Hend in Hatt. cbv zeta in Hatt.
  assert (Herr : error_detected (state_after json_loads initial_state (items s)) = false).
  { simpl. exact Hnoerr. }
  rewrite Herr in Hatt.
  assert (Hstop : stops_on (last_tool_call (state_after json_loads initial_state (items s)))
                  = existsb (marks json_loads) (items s)).
  { simpl. now rewrite stops_on_after. }
  rewrite Hstop in Hatt.
  pose proof (attempt_clean i s Hrun Hend Hd) as Hclean.
  split.
  - intros (chunk & t & Hin & Ht & Hm) n.
    assert (Hex : existsb (marks json_loads) (items s) = true).
    { apply existsb_exists. exists chunk. split; [assumption|].
      apply marks_text. now exists t. }
    rewrite Hex in Hatt.
    rewrite (while_loop_stop n i) by (rewrite Hatt; now right).
    cbn [fst snd]. rewrite Hclean, attempt_started. auto.
  - intros Hnone n.
    assert (Hex : existsb (marks json_loads) (items s) = false).
    { destruct (existsb (marks json_loads) (items s)) eqn:E; [|reflexivity].
      apply existsb_exists in E as (chunk & Hin & Hm).
      apply marks_text in Hm as (t & Ht & Hm).
      rewrite (Hnone chunk t Hin Ht) in Hm. discriminate. }
    rewrite Hex in Hatt.
    assert (Hnext : snd (attempt json_loads w i) = NextTest true)
      by now rewrite Hatt.
    split; [now apply while_loop_next|]. split; [assumption|].
    rewrite (while_loop_next (S n) i Hnext). cbn [fst].
    rewrite started_app, attempt_started.
    destruct (while_loop_started n (S i)) as (rest & ->).
    now exists rest.
Qed.

(** C6.  An assistant chunk whose decoded text holds a closing tag is
    forwarded and sets [last_tool_call] by the order ask, complete,
    web-browser-takeover: with [</ask>] in the text it is ["ask"], whatever
    else the text holds. *)
Theorem marker_priority (st : run_state) (chunk : pyval) (assistant_text : string) :
  assistant_text_of json_loads chunk = Some assistant_text ->
  exists evs st',
    process_chunk json_loads st chunk = (evs, Normal st')
    /\ yields evs = [chunk]
    /\ (contains "</ask>" assistant_text = true ->
        last_tool_call st' = Some "ask")
    /\ (contains "</ask>" assistant_text = false ->
        contains "</complete>" assistant_text = true ->
        last_tool_call st' = Some "complete")
    /\ (contains "</ask>" assistant_text = false ->
        contains "</complete>" assistant_text = false ->
        contains "</web-browser-takeover>" assistant_text = true ->
        last_tool_call st' = Some "web-browser-takeover").
Proof.
  intros Ht. destruct chunk as [| | | | |d]; try discriminate.
  destruct (process_chunk_dict st d) as (evs & Hp & _ & Hy).
  eexists. eexists. split; [exact Hp|]. split; [exact Hy|].
  cbn [last_tool_call]. unfold record_marker, chunk_marker. rewrite Ht.
  unfold scan_markers.
  repeat split; intros; repeat match goal with H : contains _ _ = _ |- _ =>
    rewrite H; clear H end; simpl; reflexivity.
Qed.

(** C9.  In a stream of dicts, [last_tool_call] after the stream is the
    tool of the last chunk that records one: what earlier chunks recorded
    is overwritten, whatever their tool. *)
Theorem last_marking_chunk_wins
  (st : run_state) (before after : list pyval) (chunk : pyval) (xml_tool : string) :
  forallb is_dict (before ++ chunk :: after) = true ->
  chunk_marker json_loads chunk = Some xml_tool ->
  forallb (fun c => negb (marks json_loads c)) after = true ->
  exists evs st',
    consume json_loads st (before ++ chunk :: after) = (evs, Normal st')
    /\ last_tool_call st' = Some xml_tool.
Proof.
  intros Hd Hm Hafter.
  destruct (consume_dicts _ Hd st) as (evs & Hc & _).
  eexists. eexists. split; [exact Hc|].
  cbn [state_after last_tool_call].
  rewrite fold_left_app. cbn [fold_left].
  rewrite (fold_no_marker _ Hafter). unfold record_marker. now rewrite Hm.
Qed.

Lemma assistant_not_status (v : option pyval) :
  py_eq_str v "assistant" = true -> py_eq_str v "status" = false.
Proof.
  destruct v as [[]|]; simpl; try discriminate.
  intros H. apply String.eqb_eq in H. now subst.
Qed.

(** C8.  An assistant chunk whose content is a string that [json.loads]
    rejects: a warning is logged, the chunk is forwarded as it is,
    [last_tool_call] and [error_detected] keep their values, nothing is
    raised, and the rest of the stream is consumed as it would have been
    without the chunk. *)
Theorem decode_failure_is_not_fatal
  (st : run_state) (d : pydict) (content : string) (rest : list pyval) :
  py_eq_str (dict_get "type" d) "assistant" = true ->
  dict_get "content" d = Some (PStr content) ->
  json_loads content = None ->
  process_chunk json_loads st (PDict d)
  = ([EvLog (LogJsonWarning (Some (PStr content))); EvYield (PDict d)], Normal st)
  /\ consume json_loads st (PDict d :: rest)
     = (EvLog (LogJsonWarning (Some (PStr content))) :: EvYield (PDict d)
          :: fst (consume json_loads st rest),
        snd (consume json_loads st rest)).
Proof.
  intros Hty Hcontent Hloads.
  assert (Hp : process_chunk json_loads st (PDict d)
               = ([EvLog (LogJsonWarning (Some (PStr content))); EvYield (PDict d)],
                  Normal st)).
  { unfold process_chunk, is_error_chunk.
    rewrite (assistant_not_status _ Hty), Hty. unfold dict_mem. rewrite Hcontent.
    simpl. unfold detect_markers, inspect_content, dict_get_default.
    rewrite Hcontent, Hloads. simpl. now destruct st. }
  split; [exact Hp|].
  simpl. rewrite Hp. now destruct (consume json_loads st rest).
Qed.

(** ** More of the gate and of the setup *)

(** The billing check is called once when [user_id] is a string that is
    not empty, whatever the check answers or raises, and never
    otherwise. *)
Theorem billing_check_exactly_when_user_id (user_id : option string) (fuel : nat) :
  billing_calls (fst (run_agent json_loads w user_id fuel))
  = match user_id with
    | Some u => if String.eqb u "" then 0 else 1
    | None => 0
    end.
Proof.
  assert (Hloop : billing_calls (fst (setup_then w (while_loop json_loads w fuel 0))) = 0).
  { unfold setup_then. destruct (tool_setup w); [reflexivity|].
    destruct (RAPID_API_KEY w); [reflexivity|]. apply while_loop_billing. }
  unfold run_agent, user_id_given.
  destruct user_id as [u|]; [destruct (String.eqb u "")|]; try exact Hloop.
  destruct (check_billing_status w) as [bs|e]; [|reflexivity].
  destruct (dict_get "has_credits" bs) as [v|]; [|reflexivity].
  destruct (truthy v); simpl; [|reflexivity].
  destruct (setup_then w (while_loop json_loads w fuel 0)) as [evs o].
  simpl in *. unfold billing_calls in *. simpl. now rewrite Hloop.
Qed.

(** Where an exception that leaves [run_agent] comes from: the billing
    check, the missing key of its answer, the setup of the tools, the
    name that is not imported, or a session that raised what does not
    derive from [Exception]. *)
Theorem escapes_come_from_setup_or_BaseException
  (user_id : option string) (fuel : nat) (e : exn) :
  snd (run_agent json_loads w user_id fuel) = Raised e ->
  (exists u, user_id_given user_id = Some u
             /\ check_billing_status w = BillingRaises e)
  \/ (exists u billing_status,
        user_id_given user_id = Some u
        /\ check_billing_status w = BillingReturns billing_status
        /\ dict_get "has_credits" billing_status = None
        /\ e = KeyError_has_credits)
  \/ tool_setup w = Some e
  \/ (tool_setup w = None /\ RAPID_API_KEY w = true
      /\ e = NameError_DataProvidersTool)
  \/ (is_Exception e = false
      /\ exists i, run_thread w i = StartRaises e
                   \/ exists s, run_thread w i = StartReturns (RespStream s)
                                /\ ending s = EndRaise e).
Proof.
  assert (Hloop : snd (setup_then w (while_loop json_loads w fuel 0)) = Raised e ->
                  tool_setup w = Some e
                  \/ (tool_setup w = None /\ RAPID_API_KEY w = true
                      /\ e = NameError_DataProvidersTool)
                  \/ (is_Exception e = false
                      /\ exists i, run_thread w i = StartRaises e
                                   \/ exists s, run_thread w i = StartReturns (RespStream s)
                                                /\ ending s = EndRaise e)).
  { unfold setup_then. destruct (tool_setup w) as [e0|].
    - intros H. inversion H. now left.
    - destruct (RAPID_API_KEY w).
      + intros H. inversion H. right. left. auto.
      + intros H. right. right.
        apply while_loop_raised in H as (j & Hj).
        apply attempt_propagates in Hj as (Hne & Hj).
        split; [assumption|]. now exists j. }
  unfold run_agent.
  destruct (user_id_given user_id) as [u|] eqn:Hu.
  - destruct (check_billing_status w) as [bs|e0] eqn:Hb.
    + destruct (dict_get "has_credits" bs) as [v|] eqn:Hk.
      * destruct (truthy v); simpl; [|discriminate].
        destruct (setup_then w (while_loop json_loads w fuel 0)) as [evs o].
        simpl in *. intros H. right. right. auto.
      * intros H. inversion H. right. left. now exists u, bs.
    + intros H. inversion H; subst. left. now exists u.
  - intros H. right. right. auto.
Qed.

(** With a truthy [config.RAPID_API_KEY] no run starts a model session:
    the run ends before the loop, by an exception or by the credit
    gate, and the credits error is all the caller can receive. *)
Theorem rapid_api_key_blocks_every_run (user_id : option string) (fuel : nat) :
  RAPID_API_KEY w = true ->
  started (fst (run_agent json_loads w user_id fuel)) = []
  /\ ((exists e, snd (run_agent json_loads w user_id fuel) = Raised e
                 /\ yields (fst (run_agent json_loads w user_id fuel)) = [])
      \/ (snd (run_agent json_loads w user_id fuel) = Returned
          /\ yields (fst (run_agent json_loads w user_id fuel)) = [credits_error])).
Proof.
  intros Hkey.
  assert (Hsetup : forall k, exists e, setup_then w k = ([], Raised e)).
  { intros k. unfold setup_then. rewrite Hkey.
    destruct (tool_setup w) as [e|]; eexists; reflexivity. }
  unfold run_agent.
  destruct (user_id_given user_id) as [u|].
  - destruct (check_billing_status w) as [bs|e0].
    + destruct (dict_get "has_credits" bs) as [v|].
      * destruct (truthy v); simpl.
        -- destruct (Hsetup (while_loop json_loads w fuel 0)) as (e & ->).
           simpl. split; [reflexivity|]. left. now exists e.
        -- split; [reflexivity|]. now right.
      * simpl. split; [reflexivity|]. left. now eexists.
    + simpl. split; [reflexivity|]. left. now eexists.
  - destruct (Hsetup (while_loop json_loads w fuel 0)) as (e & ->).
    simpl. split; [reflexivity|]. left. now exists e.
Qed.

(** ** More of the session start *)

(** A response that is neither a stream nor an error dict (a dict without
    an error status, [None], a list) cannot be iterated: the caller
    receives one synthesized error naming the type, and the run is over
    at that attempt. *)
Theorem plain_response_stops (i n : nat) (v : pyval) :
  run_thread w i = StartReturns (RespValue v) ->
  is_error_response (RespValue v) = false ->
  yields (fst (while_loop json_loads w (S n) i))
  = [status_error (streaming_error_msg (TypeError_aiter v))]
  /\ started (fst (while_loop json_loads w (S n) i)) = [i]
  /\ snd (while_loop json_loads w (S n) i) = Returned.
Proof.
  intros Hrun Hresp.
  assert (Hatt : attempt json_loads w i
                 = ([EvRunThread i;
                     EvLog (LogError (streaming_error_msg (TypeError_aiter v)));
                     EvYield (status_error (streaming_error_msg (TypeError_aiter v)))],
                    Break)).
  { unfold attempt. now rewrite Hrun, Hresp. }
  rewrite (while_loop_stop n i) by (rewrite Hatt; now left).
  rewrite Hatt. auto.
Qed.

(** The two error tests differ.  A dict with status ["error"] and no
    ['type'] stops the run when [run_thread] returns it; the same dict
    as the only chunk of a stream is forwarded as an ordinary chunk and
    the loop goes on with the next attempt. *)
Theorem untyped_error_dict_stops_only_as_response (i n : nat) (d : pydict) :
  dict_get "status" d = Some (PStr "error") ->
  dict_get "type" d = None ->
  (run_thread w i = StartReturns (RespValue (PDict d)) ->
   yields (fst (while_loop json_loads w (S n) i)) = [PDict d]
   /\ snd (while_loop json_loads w (S n) i) = Returned)
  /\ (run_thread w i = StartReturns (RespStream (mkStream [PDict d] EndNormal)) ->
      yields (fst (attempt json_loads w i)) = [PDict d]
      /\ while_loop json_loads w (S n) i
         = (fst (attempt json_loads w i) ++ fst (while_loop json_loads w n (S i)),
            snd (while_loop json_loads w n (S i)))).
Proof.
  intros Hst Hty. split; intros Hrun.
  - assert (Hatt : attempt json_loads w i
                   = ([EvRunThread i;
                       EvLog (LogErrorResponse
                                (dict_get_default "message" (PStr "Unknown error") d));
                       EvYield (PDict d)], Break)).
    { unfold attempt. rewrite Hrun. simpl. unfold dict_mem. now rewrite Hst. }
    rewrite (while_loop_stop n i) by (rewrite Hatt; now left).
    rewrite Hatt. auto.
  - assert (Hatt : attempt json_loads w i
                   = ([EvRunThread i; EvYield (PDict d)], NextTest true)).
    { unfold attempt, is_error_response, iterate. rewrite Hrun.
      cbn [items ending consume]. unfold process_chunk, is_error_chunk.
      now rewrite Hty. }
    rewrite (while_loop_next n i) by (now rewrite Hatt).
    rewrite Hatt. auto.
Qed.

(** ** More of the loop *)




Lemma attempt_continues (i : nat) (s : stream) :
  run_thread w i = StartReturns (RespStream s) ->
  ending s = EndNormal ->
  forallb is_dict (items s) = true ->
  existsb is_error_chunk (items s) = false ->
  existsb (marks json_loads) (items s) = false ->
  snd (attempt json_loads w i) = NextTest true.
Proof.
  intros Hrun Hend Hd Herr Hm.
  destruct (attempt_stream i s Hrun Hd) as (evs & _ & _ & ->).
  rewrite Hend. cbv zeta.
  replace (error_detected (state_after json_loads initial_state (items s)))
    with false by (simpl; now rewrite Herr).
  replace (stops_on (last_tool_call (state_after json_loads initial_state (items s))))
    with false by (simpl; now rewrite stops_on_after, Hm).
  reflexivity.
Qed.

(** The loop has no bound of its own on the number of attempts: as long
    as the sessions give streams that end normally with neither an error
    chunk nor a closing tag, it starts the next one. *)
Theorem loop_has_no_bound_of_its_own (fuel : nat) :
  forall i,
    (forall j, i <= j ->
               exists s, run_thread w j = StartReturns (RespStream s)
                         /\ ending s = EndNormal
                         /\ forallb is_dict (items s) = true
                         /\ existsb is_error_chunk (items s) = false
                         /\ existsb (marks json_loads) (items s) = false) ->
    snd (while_loop json_loads w fuel i) = Running
    /\ started (fst (while_loop json_loads w fuel i)) = seq i fuel.
Proof.
  induction fuel as [|n IH]; intros i Hall; [now split|].
  destruct (Hall i (le_n i)) as (s & Hrun & Hend & Hd & Herr & Hm).
  rewrite (while_loop_next n i (attempt_continues i s Hrun Hend Hd Herr Hm)).
  cbn [fst snd].
  destruct (IH (S i)) as [Ho Hs].
  { intros j Hj. apply Hall. lia. }
  split; [assumption|].
  now rewrite started_app, attempt_started, Hs.
Qed.

Lemma consume_until_other (before after : list pyval) (chunk : pyval) :
  forallb is_dict before = true ->
  is_dict chunk = false ->
  forall st, exists evs,
    consume json_loads st (before ++ chunk :: after)
    = (evs, Raise (AttributeError_get chunk))
    /\ yields evs = before.
Proof.
  intros Hd Hc. induction before as [|c before IH]; intros st.
  - exists []. simpl. now rewrite (process_chunk_other st chunk Hc).
  - simpl in Hd. apply andb_true_iff in Hd as [Hcd Hd].
    destruct c; try discriminate.
    destruct (process_chunk_dict st d) as (evs & Hp & _ & Hy).
    simpl. rewrite Hp.
    match goal with |- context [consume json_loads ?s _] =>
      destruct (IH Hd s) as (evs' & -> & Hy')
    end.
    exists (evs ++ evs'). split; [reflexivity|].
    now rewrite yields_app, Hy, Hy'.
Qed.

(** A chunk that is not a dict ends the run wherever it stands in the
    stream: the dicts before it are forwarded, the chunk itself and all
    that follows are not, and the synthesized error names the type of
    the chunk. *)
Theorem chunk_that_is_no_dict_ends_the_run
  (i n : nat) (s : stream) (before after : list pyval) (chunk : pyval) :
  run_thread w i = StartReturns (RespStream s) ->
  items s = before ++ chunk :: after ->
  forallb is_dict before = true ->
  is_dict chunk = false ->
  yields (fst (while_loop json_loads w (S n) i))
  = before ++ [status_error (streaming_error_msg (AttributeError_get chunk))]
  /\ started (fst (while_loop json_loads w (S n) i)) = [i]
  /\ snd (while_loop json_loads w (S n) i) = Returned.
Proof.
  intros Hrun Hitems Hd Hc.
  destruct (consume_until_other before after chunk Hd Hc initial_state)
    as (evs & Hcons & Hy).
  assert (Hatt : attempt json_loads w i
                 = (EvRunThread i :: evs
                      ++ [EvLog (LogError (streaming_error_msg (AttributeError_get chunk)));
                          EvYield (status_error
                                     (streaming_error_msg (AttributeError_get chunk)))],
                    Break)).
  { unfold attempt, is_error_response, iterate. rewrite Hrun, Hitems, Hcons.
    reflexivity. }
  pose proof (attempt_started i) as Hs.
  rewrite (while_loop_stop n i) by (rewrite Hatt; now left).
  cbn [fst snd]. rewrite Hs. repeat split.
  rewrite Hatt. cbn [fst].
  change (yields (EvRunThread i :: ?l)) with (yields l).
  now rewrite yields_app, Hy.
Qed.

(** Within an attempt nothing is taken back: over a stream of dicts an
    error once detected stays detected, and a recorded tool that stops
    the run stays one that stops it. *)
Theorem flags_are_sticky (st : run_state) (chunks : list pyval) :
  forallb is_dict chunks = true ->
  exists evs st',
    consume json_loads st chunks = (evs, Normal st')
    /\ (error_detected st = true -> error_detected st' = true)
    /\ (stops_on (last_tool_call st) = true -> stops_on (last_tool_call st') = true).
Proof.
  intros Hd. destruct (consume_dicts _ Hd st) as (evs & Hc & _).
  eexists. eexists. split; [exact Hc|]. simpl. split.
  - now intros ->.
  - intros H. now rewrite stops_on_after, H.
Qed.

(** An assistant chunk whose content cannot be scanned is still
    forwarded and changes nothing: when the content decodes to a value
    that is no dict, an error is logged; when the nested content is no
    string (a list of blocks, say), nothing is logged, and closing tags
    inside it are not seen. *)
Theorem unscannable_content_is_forwarded (st : run_state) (d : pydict) :
  py_eq_str (dict_get "type" d) "assistant" = true ->
  (forall content v,
      dict_get "content" d = Some (PStr content) ->
      json_loads content = Some v ->
      is_dict v = false ->
      process_chunk json_loads st (PDict d)
      = ([EvLog (LogChunkError (AttributeError_get v)); EvYield (PDict d)], Normal st))
  /\ (forall inner nested,
        dict_get "content" d = Some (PDict inner) ->
        dict_get "content" inner = Some nested ->
        (forall assistant_text, nested <> PStr assistant_text) ->
        process_chunk json_loads st (PDict d) = ([EvYield (PDict d)], Normal st)).
Proof.
  intros Hty.
  assert (Hp : forall c, dict_get "content" d = Some c ->
                process_chunk json_loads st (PDict d)
                = (fst (detect_markers json_loads d (last_tool_call st))
                     ++ [EvYield (PDict d)],
                   Normal (mkState (snd (detect_markers json_loads d (last_tool_call st)))
                                   (error_detected st)))).
  { intros c Hc. unfold process_chunk, is_error_chunk.
    rewrite (assistant_not_status _ Hty), Hty. unfold dict_mem. rewrite Hc. simpl.
    now destruct (detect_markers json_loads d (last_tool_call st)). }
  split.
  - intros content v Hc Hl Hv. rewrite (Hp _ Hc).
    unfold detect_markers, inspect_content, dict_get_default. rewrite Hc, Hl.
    destruct v; try discriminate; simpl; now destruct st.
  - intros inner nested Hc Hn Hno. rewrite (Hp _ Hc).
    unfold detect_markers, inspect_content, dict_get_default. rewrite Hc, Hn.
    destruct nested; simpl; try (now destruct st).
    now contradiction (Hno s).
Qed.

(** The content of an assistant chunk may be a JSON text or the object
    itself: a text that decodes to a dict leaves the loop in the state the
    dict itself leaves it in. *)
Theorem content_text_or_object_alike
  (st : run_state) (d1 d2 : pydict) (content : string) (object : pydict) :
  py_eq_str (dict_get "type" d1) "assistant" = true ->
  py_eq_str (dict_get "type" d2) "assistant" = true ->
  dict_get "content" d1 = Some (PStr content) ->
  dict_get "content" d2 = Some (PDict object) ->
  json_loads content = Some (PDict object) ->
  snd (process_chunk json_loads st (PDict d1))
  = snd (process_chunk json_loads st (PDict d2)).
Proof.
  intros Hty1 Hty2 Hc1 Hc2 Hl.
  destruct (process_chunk_dict st d1) as (evs1 & -> & _).
  destruct (process_chunk_dict st d2) as (evs2 & -> & _).
  cbn [snd]. unfold is_error_chunk.
  rewrite (assistant_not_status _ Hty1), (assistant_not_status _ Hty2).
  unfold record_marker, chunk_marker, assistant_text_of, dict_mem.
  rewrite Hty1, Hty2, Hc1, Hc2. simpl.
  unfold inspect_content, dict_get_default. now rewrite Hc1, Hc2, Hl.
Qed.

End Properties.

(** ** The loop on sample runs *)

(** The setup is outside the handlers of the loop: an exception of the
    billing check leaves the generator, and no fragment is yielded. *)
Lemma billing_failure_escapes :
  run_agent sample_loads
    (after_one (BillingRaises billing_unreachable)
               (StartReturns (RespStream completing_stream)))
    (Some "u1") 3
  = ([EvBilling "u1"], Raised billing_unreachable).
Proof. reflexivity. Qed.

(** So does the [NameError] of the branch of [config.RAPID_API_KEY], which
    uses a tool class the module does not import. *)
Lemma rapid_api_key_raises (json_loads : string -> option pyval)
  (w : world) (fuel : nat) :
  tool_setup w = None ->
  RAPID_API_KEY w = true ->
  run_agent json_loads w None fuel = ([], Raised NameError_DataProvidersTool).
Proof. intros Hs Hk. unfold run_agent, setup_then. simpl. now rewrite Hs, Hk. Qed.

(** The credits error is a fragment of no stream. *)
Lemma credits_error_is_no_stream_chunk :
  yields (fst (run_agent sample_loads
                 (after_one has_credits_no (StartReturns (RespStream completing_stream)))
                 (Some "u1") 3))
  <> produced (after_one has_credits_no (StartReturns (RespStream completing_stream)))
       (started (fst (run_agent sample_loads
                        (after_one has_credits_no
                                   (StartReturns (RespStream completing_stream)))
                        (Some "u1") 3))).
Proof. vm_compute. discriminate. Qed.

Lemma exceptions_contained_in_loop_witness :
  snd (run_agent sample_loads
         (after_one has_credits_yes (StartReturns (RespStream breaking_stream)))
         (Some "u1") 5) = Returned
  /\ yields (fst (run_agent sample_loads
                    (after_one has_credits_yes (StartReturns (RespStream breaking_stream)))
                    (Some "u1") 5))
     = produced (after_one has_credits_yes (StartReturns (RespStream breaking_stream)))
         (started (fst (run_agent sample_loads
                          (after_one has_credits_yes
                                     (StartReturns (RespStream breaking_stream)))
                          (Some "u1") 5)))
       ++ [status_error (streaming_error_msg connection_reset)].
Proof.
  assert (Hsetup : setup_completes
                     (after_one has_credits_yes (StartReturns (RespStream breaking_stream)))
                     (Some "u1")).
  { split; [|split; reflexivity]. right.
    exists [("has_credits", PBool true)], (PBool true). split; reflexivity. }
  assert (Hexc : raises_only_Exception
                   (after_one has_credits_yes (StartReturns (RespStream breaking_stream)))).
  { split.
    - intros [|i] e H; discriminate.
    - intros [|i] s e H Hend; inversion H; subst; simpl in Hend;
        [discriminate | inversion Hend; reflexivity]. }
  apply (proj2 (exceptions_contained_in_loop sample_loads _ (Some "u1") 5 Hsetup Hexc)
               1 breaking_stream connection_reset).
  - vm_compute. right. left. reflexivity.
  - reflexivity.
  - reflexivity.
  - reflexivity.
Defined.

Lemma yields_follow_streams_witness :
  yields (fst (run_agent sample_loads
                 (after_one has_credits_yes (StartReturns (RespStream completing_stream)))
                 (Some "u1") 5))
  = produced (after_one has_credits_yes (StartReturns (RespStream completing_stream)))
      (started (fst (run_agent sample_loads
                       (after_one has_credits_yes
                                  (StartReturns (RespStream completing_stream)))
                       (Some "u1") 5))).
Proof.
  assert (Hd : streams_of_dicts
                 (after_one has_credits_yes (StartReturns (RespStream completing_stream)))).
  { intros [|i]; reflexivity. }
  apply (proj2 (yields_follow_streams sample_loads _ (Some "u1") 5 Hd)).
  split; [|split; [reflexivity|split; [reflexivity|]]].
  - right. exists [("has_credits", PBool true)], (PBool true).
    repeat split; reflexivity.
  - intros [|i]; eexists; split; reflexivity.
Defined.

Lemma error_drains_then_stops_witness :
  yields (fst (while_loop sample_loads
                 (after_one has_credits_yes (StartReturns (RespStream erroring_stream)))
                 4 1))
  = items erroring_stream
  /\ started (fst (while_loop sample_loads
                     (after_one has_credits_yes (StartReturns (RespStream erroring_stream)))
                     4 1))
     = [1].
Proof.
  destruct (error_drains_then_stops sample_loads
              (after_one has_credits_yes (StartReturns (RespStream erroring_stream)))
              1 1 3 erroring_stream upstream_error
              eq_refl eq_refl eq_refl eq_refl)
    as (_ & Hstarted & _ & Hnormal).
  split; [apply (Hnormal eq_refl) | exact Hstarted].
Defined.

Lemma marker_stops_else_continues_witness :
  snd (while_loop sample_loads
         (after_one has_credits_yes (StartReturns (RespStream completing_stream)))
         4 1) = Returned
  /\ exists rest,
       started (fst (while_loop sample_loads
                       (after_one has_credits_yes
                                  (StartReturns (RespStream completing_stream)))
                       2 0))
       = 0 :: 1 :: rest.
Proof.
  split.
  - apply (proj1 (marker_stops_else_continues sample_loads
                    (after_one has_credits_yes (StartReturns (RespStream completing_stream)))
                    1 completing_stream eq_refl eq_refl eq_refl eq_refl)).
    exists (assistant_chunk (PStr (envelope "All done <complete>ok</complete>"))),
           "All done <complete>ok</complete>".
    split; [right; left; reflexivity | split; reflexivity].
  - apply (proj2 (marker_stops_else_continues sample_loads
                    (after_one has_credits_yes (StartReturns (RespStream completing_stream)))
                    0 working_stream eq_refl eq_refl eq_refl eq_refl)).
    intros chunk t [<-|[]] Ht. vm_compute in Ht. inversion Ht. reflexivity.
Defined.

Lemma credit_gate_once_witness :
  yields (fst (run_agent sample_loads
                 (after_one has_credits_no (StartReturns (RespStream completing_stream)))
                 (Some "u1") 5))
  = [credits_error]
  /\ started (fst (run_agent sample_loads
                     (after_one has_credits_no
                                (StartReturns (RespStream completing_stream)))
                     (Some "u1") 5))
     = [].
Proof.
  destruct (proj2 (credit_gate_once sample_loads
                     (after_one has_credits_no
                                (StartReturns (RespStream completing_stream)))
                     (Some "u1") 5)
                  "u1" [("has_credits", PBool false)] (PBool false)
                  eq_refl eq_refl eq_refl eq_refl)
    as (Hy & _ & Hs & _).
  split; assumption.
Defined.

Lemma marker_priority_witness :
  exists evs st',
    process_chunk sample_loads initial_state
      (assistant_chunk (PStr (envelope both_tags)))
    = (evs, Normal st')
    /\ last_tool_call st' = Some "ask".
Proof.
  destruct (marker_priority sample_loads initial_state
              (assistant_chunk (PStr (envelope both_tags))) both_tags eq_refl)
    as (evs & st' & Hp & _ & Hask & _).
  exists evs, st'. split; [exact Hp | apply Hask; reflexivity].
Defined.

Lemma start_failure_stops_witness :
  yields (fst (while_loop sample_loads
                 (after_one has_credits_yes (StartReturns (RespValue (PDict refused))))
                 3 1))
  = [PDict refused]
  /\ yields (fst (while_loop sample_loads
                    (after_one has_credits_yes (StartRaises connection_reset))
                    3 1))
     = [status_error (thread_error_msg connection_reset)].
Proof.
  split.
  - apply (proj1 (start_failure_stops sample_loads
                    (after_one has_credits_yes (StartReturns (RespValue (PDict refused))))
                    1 2) refused eq_refl eq_refl).
  - apply (proj2 (start_failure_stops sample_loads
                    (after_one has_credits_yes (StartRaises connection_reset))
                    1 2) connection_reset eq_refl eq_refl).
Defined.

Lemma decode_failure_is_not_fatal_witness :
  process_chunk sample_loads initial_state (PDict undecodable)
  = ([EvLog (LogJsonWarning (Some (PStr "not json"))); EvYield (PDict undecodable)],
     Normal initial_state).
Proof.
  apply (proj1 (decode_failure_is_not_fatal sample_loads initial_state
                  undecodable "not json" [] eq_refl eq_refl eq_refl)).
Defined.

Lemma last_marking_chunk_wins_witness :
  exists evs st',
    consume sample_loads initial_state
      ([assistant_chunk (PStr (envelope "<ask>sure?</ask>"))]
       ++ assistant_chunk (PStr (envelope "<complete>ok</complete>"))
       :: [tool_chunk "late result"])
    = (evs, Normal st')
    /\ last_tool_call st' = Some "complete".
Proof.
  apply (last_marking_chunk_wins sample_loads initial_state
           [assistant_chunk (PStr (envelope "<ask>sure?</ask>"))]
           [tool_chunk "late result"]
           (assistant_chunk (PStr (envelope "<complete>ok</complete>")))
           "complete" eq_refl eq_refl eq_refl).
Defined.

Lemma no_user_id_skips_gate_witness :
  run_agent sample_loads
    (after_one has_credits_no (StartReturns (RespStream completing_stream))) None 5
  = while_loop sample_loads
      (after_one has_credits_no (StartReturns (RespStream completing_stream))) 5 0
  /\ exists rest,
       started (fst (run_agent sample_loads
                       (after_one has_credits_no
                                  (StartReturns (RespStream completing_stream)))
                       None 5))
       = 0 :: rest.
Proof.
  destruct (proj2 (proj2 (no_user_id_skips_gate sample_loads
                            (after_one has_credits_no
                                       (StartReturns (RespStream completing_stream)))
                            5))
                  eq_refl eq_refl)
    as [Hrun Hstarted].
  split; [exact Hrun | apply Hstarted; lia].
Defined.

(** ** Substrings *)

Lemma contains_unfold (needle hay : string) :
  contains needle hay
  = if String.prefix needle hay then true
    else match hay with
         | EmptyString => false
         | String _ rest => contains needle rest
         end.
Proof. now destruct hay. Qed.

Lemma prefix_nil (s : string) : String.prefix "" s = true.
Proof. now destruct s. Qed.

Lemma prefix_here (a b : string) : String.prefix a (a ++ b) = true.
Proof.
  induction a as [|c a IH]; simpl; [apply prefix_nil|].
  destruct (ascii_dec c c); [assumption | congruence].
Qed.

Lemma prefix_app_l (a b : string) :
  forall h, String.prefix (a ++ b) h = true -> String.prefix a h = true.
Proof.
  induction a as [|c a IH]; intros h; simpl; [intros _; apply prefix_nil|].
  destruct h as [|c' h]; simpl; [discriminate|].
  destruct (ascii_dec c c'); [apply IH | discriminate].
Qed.

Lemma contains_here (a b : string) : contains a (a ++ b) = true.
Proof. rewrite contains_unfold. now rewrite prefix_here. Qed.

Lemma contains_skip (p needle hay : string) :
  contains needle hay = true -> contains needle (p ++ hay) = true.
Proof.
  intros H. induction p as [|c p IH]; [assumption|].
  change (String c p ++ hay)%string with (String c (p ++ hay)).
  rewrite contains_unfold, IH.
  now destruct (String.prefix needle (String c (p ++ hay))).
Qed.

Lemma contains_app_l (a b : string) :
  forall h, contains (a ++ b) h = true -> contains a h = true.
Proof.
  induction h as [|c h IH];
    match goal with |- contains _ ?x = _ -> contains _ ?x = _ =>
      rewrite (contains_unfold (a ++ b) x), (contains_unfold a x)
    end.
  - destruct (String.prefix (a ++ b) "") eqn:E; [|discriminate].
    now rewrite (prefix_app_l a b _ E).
  - destruct (String.prefix (a ++ b) (String c h)) eqn:E.
    + now rewrite (prefix_app_l a b _ E).
    + intros H. rewrite (IH H). now destruct (String.prefix a (String c h)).
Qed.

(** A closing tag is found wherever it stands in the text, and [</ask>]
    decides wherever it stands; a text with any of the three closing
    tags stops the run. *)
Theorem closing_tag_found_anywhere (a b : string) :
  scan_markers (a ++ "</ask>" ++ b) = Some "ask"
  /\ stops_on (scan_markers (a ++ "</complete>" ++ b)) = true
  /\ stops_on (scan_markers (a ++ "</web-browser-takeover>" ++ b)) = true.
Proof.
  unfold scan_markers. repeat split.
  - rewrite (contains_skip a _ _ (contains_here "</ask>" b)). reflexivity.
  - rewrite (contains_skip a _ _ (contains_here "</complete>" b)).
    rewrite orb_true_r. cbn [orb].
    now destruct (contains "</ask>" (a ++ "</complete>" ++ b)).
  - rewrite (contains_skip a _ _ (contains_here "</web-browser-takeover>" b)).
    rewrite orb_true_r.
    destruct (contains "</ask>" (a ++ "</web-browser-takeover>" ++ b));
      destruct (contains "</complete>" (a ++ "</web-browser-takeover>" ++ b));
      reflexivity.
Qed.

(** Only closing tags count: a text in which no ["</"] occurs, an opened
    tag that is not yet closed for one, records no tool. *)
Theorem text_without_closing_tag_records_nothing (assistant_text : string) :
  contains "</" assistant_text = false ->
  scan_markers assistant_text = None.
Proof.
  intros H. unfold scan_markers.
  assert (Hno : forall tail, contains ("</" ++ tail) assistant_text = false).
  { intros tail. destruct (contains ("</" ++ tail) assistant_text) eqn:E; [|reflexivity].
    apply contains_app_l in E. congruence. }
  change "</ask>" with ("</" ++ "ask>")%string.
  change "</complete>" with ("</" ++ "complete>")%string.
  change "</web-browser-takeover>" with ("</" ++ "web-browser-takeover>")%string.
  now rewrite !Hno.
Qed.

(** ** Path cleaning *)

Lemma lstrip_not_slash (p : string) :
  String.prefix "/" p = false -> CodeInterpreterTool.lstrip_slash p = p.
Proof.
  destruct p as [|c p]; [reflexivity|]. simpl.
  destruct (Ascii.eqb_spec c "/"%char); [|reflexivity].
  subst. simpl. now rewrite prefix_nil.
Qed.

Lemma replace_absent (old new s : string) :
  contains old s = false -> CodeInterpreterTool.replace_from old new 0 s = s.
Proof.
  induction s as [|c s IH]; [reflexivity|].
  rewrite contains_unfold. cbn [CodeInterpreterTool.replace_from].
  destruct (String.prefix old (String c s)); intros H; [discriminate|].
  now rewrite (IH H).
Qed.

Lemma length_lstrip (s : string) :
  String.length (CodeInterpreterTool.lstrip_slash s) <= String.length s.
Proof.
  induction s as [|c s IH]; simpl; [lia|].
  destruct (Ascii.eqb c "/"%char); simpl; lia.
Qed.

Lemma length_drop (n : nat) :
  forall s, String.length (CodeInterpreterTool.drop n s) <= String.length s.
Proof.
  induction n as [|n IH]; intros s; [simpl; lia|].
  destruct s as [|c s]; simpl; [lia|]. specialize (IH s). lia.
Qed.

Lemma length_replace_from (old : string) (s : string) :
  forall skip,
    String.length (CodeInterpreterTool.replace_from old "" skip s) <= String.length s.
Proof.
  induction s as [|c s IH]; intros skip; [simpl; lia|].
  cbn [CodeInterpreterTool.replace_from String.length].
  destruct skip as [|skip].
  - destruct (String.prefix old (String c s)); cbn [String.append String.length].
    + specialize (IH (String.length old - 1)). lia.
    + specialize (IH 0). lia.
  - specialize (IH skip). lia.
Qed.

(** A relative path that does not begin with [workspace/] and in which
    no ["../"] occurs is kept as it is, and its two absolute spellings
    are cleaned to it. *)
Theorem clean_path_keeps_plain_relative_paths (p : string) :
  String.prefix "/" p = false ->
  String.prefix "workspace/" p = false ->
  contains "../" p = false ->
  CodeInterpreterTool._clean_path p = p
  /\ CodeInterpreterTool._clean_path ("/" ++ p) = p
  /\ CodeInterpreterTool._clean_path ("/workspace/" ++ p) = p.
Proof.
  intros Hslash Hws Hup.
  unfold CodeInterpreterTool._clean_path, CodeInterpreterTool.replace.
  repeat split.
  - now rewrite (lstrip_not_slash p Hslash), Hws, (replace_absent _ _ _ Hup).
  - change (CodeInterpreterTool.lstrip_slash ("/" ++ p))
      with (CodeInterpreterTool.lstrip_slash p).
    now rewrite (lstrip_not_slash p Hslash), Hws, (replace_absent _ _ _ Hup).
  - change (CodeInterpreterTool.lstrip_slash ("/workspace/" ++ p))
      with ("workspace/" ++ p)%string.
    rewrite (prefix_here "workspace/" p).
    change (CodeInterpreterTool.drop (String.length "workspace/") ("workspace/" ++ p))
      with p.
    apply (replace_absent _ _ _ Hup).
Qed.

(** The cleaning is one pass.  What the removal of a ["../"] joins is not
    looked at again, so a path can keep a step to the parent directory
    and lead out of the workspace; and the slashes at the front are
    stripped before the prefix only, so the result can begin with a
    slash. *)
Theorem cleaning_leaves_updir_and_root (workspace_path p : string) :
  CodeInterpreterTool.full_path workspace_path ("....//" ++ p)
  = (workspace_path ++ "/../" ++ CodeInterpreterTool.replace "../" "" p)%string
  /\ CodeInterpreterTool._clean_path ("/workspace//" ++ p)
     = ("/" ++ CodeInterpreterTool.replace "../" "" p)%string.
Proof. split; reflexivity. Qed.

(** The cleaned path is never longer than the path. *)
Theorem clean_path_never_longer (p : string) :
  String.length (CodeInterpreterTool._clean_path p) <= String.length p.
Proof.
  unfold CodeInterpreterTool._clean_path, CodeInterpreterTool.replace.
  pose proof (length_lstrip p) as H1.
  destruct (String.prefix "workspace/" (CodeInterpreterTool.lstrip_slash p)).
  - pose proof (length_drop (String.length "workspace/")
                  (CodeInterpreterTool.lstrip_slash p)) as H2.
    pose proof (length_replace_from "../"
                  (CodeInterpreterTool.drop (String.length "workspace/")
                     (CodeInterpreterTool.lstrip_slash p)) 0) as H3.
    lia.
  - pose proof (length_replace_from "../" (CodeInterpreterTool.lstrip_slash p) 0) as H3.
    lia.
Qed.

(** ** Plan steps *)

Section PlanProperties.

Variable lower : string -> string.

Lemma template_steps_pending (task : string) (step : pydict) :
  In step (PlanningTool.plan_template lower task) ->
  exists description, step = PlanningTool.pending description.
Proof.
  unfold PlanningTool.plan_template.
  destruct (contains "website" (lower task));
    [|destruct (contains "research" (lower task) || contains "report" (lower task));
      [|destruct (contains "data" (lower task) || contains "analysis" (lower task))]];
    intros H; simpl in H;
    repeat (destruct H as [<-|H]; [eexists; reflexivity|]); contradiction.
Qed.

Lemma template_length (task : string) :
  length (PlanningTool.plan_template lower task) = 7
  \/ length (PlanningTool.plan_template lower task) = 8.
Proof.
  unfold PlanningTool.plan_template.
  destruct (contains "website" (lower task));
    [|destruct (contains "research" (lower task) || contains "report" (lower task));
      [|destruct (contains "data" (lower task) || contains "analysis" (lower task))]];
    simpl; auto.
Qed.

Lemma In_firstn {A : Type} (n : nat) :
  forall (l : list A) (x : A), In x (firstn n l) -> In x l.
Proof.
  induction n as [|n IH]; intros l x H; [contradiction|].
  destruct l as [|a l]; [contradiction|].
  destruct H as [<-|H]; [now left | right; now apply IH].
Qed.

Lemma In_slice_to {A : Type} (n : Z) (l : list A) (x : A) :
  In x (PlanningTool.slice_to n l) -> In x l.
Proof. unfold PlanningTool.slice_to. destruct (n <? 0)%Z; apply In_firstn. Qed.

(** For every task, a [num_steps] from 0 to 7 gives that many steps: the
    default of 5 gives five. *)
Theorem plan_has_requested_number_of_steps (timestamp task : string) (num_steps : Z) :
  (0 <= num_steps <= 7)%Z ->
  length (PlanningTool._generate_plan_steps lower timestamp task num_steps)
  = Z.to_nat num_steps.
Proof.
  intros Hn. unfold PlanningTool._generate_plan_steps. rewrite length_map.
  pose proof (template_length task) as Hlen.
  destruct (Z.of_nat (length (PlanningTool.plan_template lower task)) >? num_steps)%Z
    eqn:Hgt.
  - unfold PlanningTool.slice_to.
    replace (num_steps <? 0)%Z with false by (symmetry; apply Z.ltb_ge; lia).
    rewrite length_firstn. lia.
  - rewrite Z.gtb_ltb in Hgt. apply Z.ltb_ge in Hgt. lia.
Qed.


(** Every step of a generated plan is pending, carries the timestamp of
    the call and has a description. *)
Theorem plan_steps_are_pending_and_stamped
  (timestamp task : string) (num_steps : Z) (step : pydict) :
  In step (PlanningTool._generate_plan_steps lower timestamp task num_steps) ->
  dict_get "status" step = Some (PStr "pending")
  /\ dict_get "created_at" step = Some (PStr timestamp)
  /\ exists description, dict_get "description" step = Some (PStr description).
Proof.
  unfold PlanningTool._generate_plan_steps. intros H.
  apply in_map_iff in H as (step0 & <- & H).
  assert (H0 : In step0 (PlanningTool.plan_template lower task)).
  { destruct (Z.of_nat (length (PlanningTool.plan_template lower task)) >? num_steps)%Z;
      [now apply In_slice_to in H | assumption]. }
  apply template_steps_pending in H0 as (description & ->).
  repeat split. now exists description.
Qed.

(** The word ["website"] decides the template before any other word: a
    task that names a website gets the first steps of the website plan,
    whatever else it names. *)
Theorem website_template_wins (timestamp task : string) (num_steps : Z) :
  contains "website" (lower task) = true ->
  (0 <= num_steps)%Z ->
  PlanningTool._generate_plan_steps lower timestamp task num_steps
  = map (PlanningTool.dict_set "created_at" (PStr timestamp))
        (firstn (Z.to_nat num_steps) PlanningTool.website_steps).
Proof.
  intros Hweb Hn. unfold PlanningTool._generate_plan_steps, PlanningTool.plan_template.
  rewrite Hweb.
  destruct (Z.of_nat (length PlanningTool.website_steps) >? num_steps)%Z eqn:Hgt.
  - unfold PlanningTool.slice_to.
    now replace (num_steps <? 0)%Z with false by (symmetry; apply Z.ltb_ge; lia).
  - rewrite Z.gtb_ltb in Hgt. apply Z.ltb_ge in Hgt.
    rewrite firstn_all2; [reflexivity|].
    change (length PlanningTool.website_steps) with 8 in *. lia.
Qed.

End PlanProperties.

(** ** Imports *)

Section ImportProperties.

Variable loads : string -> option exn.
Variable binds : string -> string -> bool.



Variable registry : Type.
Variable register_tool : string -> registry -> registry.
Variable construct : string -> option exn.


End ImportProperties.

(** ** More sample runs *)

Lemma escapes_come_from_setup_or_BaseException_witness :
  check_billing_status
    (after_one (BillingRaises billing_unreachable)
               (StartReturns (RespStream completing_stream)))
  = BillingRaises billing_unreachable
  /\ snd (run_agent sample_loads
            (after_one (BillingRaises billing_unreachable)
                       (StartReturns (RespStream completing_stream)))
            (Some "u1") 3)
     = Raised billing_unreachable.
Proof.
  assert (H : snd (run_agent sample_loads
                     (after_one (BillingRaises billing_unreachable)
                                (StartReturns (RespStream completing_stream)))
                     (Some "u1") 3)
              = Raised billing_unreachable) by reflexivity.
  split; [|exact H].
  destruct (escapes_come_from_setup_or_BaseException sample_loads _ _ _ _ H)
    as [(u & _ & Hb)|[(u & bs & _ & Hb & _)|[Hs|[(_ & Hk & _)|(Hn & _)]]]];
    try discriminate.
  exact Hb.
Defined.

Lemma rapid_api_key_blocks_every_run_witness :
  started (fst (run_agent sample_loads keyed_world (Some "u1") 5)) = []
  /\ started (fst (run_agent sample_loads keyed_world None 5)) = [].
Proof.
  split.
  - apply (proj1 (rapid_api_key_blocks_every_run sample_loads keyed_world
                    (Some "u1") 5 eq_refl)).
  - apply (proj1 (rapid_api_key_blocks_every_run sample_loads keyed_world
                    None 5 eq_refl)).
Defined.

Lemma plain_response_stops_witness :
  yields (fst (while_loop sample_loads
                 (after_one has_credits_yes (StartReturns (RespValue PNone))) 4 1))
  = [status_error (streaming_error_msg (TypeError_aiter PNone))]
  /\ snd (while_loop sample_loads
            (after_one has_credits_yes (StartReturns (RespValue PNone))) 4 1)
     = Returned.
Proof.
  destruct (plain_response_stops sample_loads
              (after_one has_credits_yes (StartReturns (RespValue PNone)))
              1 3 PNone eq_refl eq_refl)
    as (Hy & _ & Ho).
  split; assumption.
Defined.

Lemma untyped_error_dict_stops_only_as_response_witness :
  snd (while_loop sample_loads
         (after_one has_credits_yes (StartReturns (RespValue (PDict refused)))) 4 1)
  = Returned
  /\ yields (fst (attempt sample_loads
                    (after_one has_credits_yes
                       (StartReturns (RespStream (mkStream [PDict refused] EndNormal))))
                    1))
     = [PDict refused].
Proof.
  split.
  - apply (proj1 (untyped_error_dict_stops_only_as_response sample_loads
                    (after_one has_credits_yes (StartReturns (RespValue (PDict refused))))
                    1 3 refused eq_refl eq_refl) eq_refl).
  - apply (proj2 (untyped_error_dict_stops_only_as_response sample_loads
                    (after_one has_credits_yes
                       (StartReturns (RespStream (mkStream [PDict refused] EndNormal))))
                    1 3 refused eq_refl eq_refl) eq_refl).
Defined.


Lemma loop_has_no_bound_of_its_own_witness :
  snd (while_loop sample_loads
         (after_one has_credits_yes (StartReturns (RespStream working_stream))) 6 0)
  = Running
  /\ started (fst (while_loop sample_loads
                     (after_one has_credits_yes (StartReturns (RespStream working_stream)))
                     6 0))
     = seq 0 6.
Proof.
  apply (loop_has_no_bound_of_its_own sample_loads
           (after_one has_credits_yes (StartReturns (RespStream working_stream))) 6 0).
  intros j _. exists working_stream.
  destruct j; repeat split; reflexivity.
Defined.

Lemma chunk_that_is_no_dict_ends_the_run_witness :
  yields (fst (while_loop sample_loads
                 (after_one has_credits_yes (StartReturns (RespStream garbled_stream)))
                 4 1))
  = [assistant_chunk (PStr (envelope "step"));
     status_error (streaming_error_msg (AttributeError_get (PStr "keep-alive")))].
Proof.
  apply (proj1 (chunk_that_is_no_dict_ends_the_run sample_loads
                  (after_one has_credits_yes (StartReturns (RespStream garbled_stream)))
                  1 3 garbled_stream
                  [assistant_chunk (PStr (envelope "step"))]
                  [tool_chunk "late result"] (PStr "keep-alive")
                  eq_refl eq_refl eq_refl eq_refl)).
Defined.

Lemma flags_are_sticky_witness :
  exists evs st',
    consume sample_loads (mkState (Some "ask") true) (items working_stream)
    = (evs, Normal st')
    /\ error_detected st' = true
    /\ stops_on (last_tool_call st') = true.
Proof.
  destruct (flags_are_sticky sample_loads (mkState (Some "ask") true)
              (items working_stream) eq_refl)
    as (evs & st' & Hc & He & Hs).
  exists evs, st'. split; [exact Hc|]. split; [apply He | apply Hs]; reflexivity.
Defined.

Lemma unscannable_content_is_forwarded_witness :
  process_chunk list_loads initial_state (assistant_chunk (PStr "[]"))
  = ([EvLog (LogChunkError (AttributeError_get (PList [])));
      EvYield (assistant_chunk (PStr "[]"))], Normal initial_state)
  /\ process_chunk list_loads initial_state (assistant_chunk (PDict content_blocks))
     = ([EvYield (assistant_chunk (PDict content_blocks))], Normal initial_state).
Proof.
  split.
  - apply (proj1 (unscannable_content_is_forwarded list_loads initial_state
                    [("type", PStr "assistant"); ("content", PStr "[]")] eq_refl)
             "[]" (PList []) eq_refl eq_refl eq_refl).
  - apply (proj2 (unscannable_content_is_forwarded list_loads initial_state
                    [("type", PStr "assistant"); ("content", PDict content_blocks)] eq_refl)
             content_blocks
             (PList [PDict [("type", PStr "text"); ("text", PStr "<complete>ok</complete>")]])
             eq_refl eq_refl).
    intros t H. discriminate.
Defined.

Lemma content_text_or_object_alike_witness :
  snd (process_chunk sample_loads initial_state
         (assistant_chunk (PStr (envelope "<complete>ok</complete>"))))
  = snd (process_chunk sample_loads initial_state
           (assistant_chunk (PDict [("content", PStr "<complete>ok</complete>")]))).
Proof.
  apply (content_text_or_object_alike sample_loads initial_state
           [("type", PStr "assistant"); ("content", PStr (envelope "<complete>ok</complete>"))]
           [("type", PStr "assistant");
            ("content", PDict [("content", PStr "<complete>ok</complete>")])]
           (envelope "<complete>ok</complete>")
           [("content", PStr "<complete>ok</complete>")]
           eq_refl eq_refl eq_refl eq_refl eq_refl).
Defined.

Lemma text_without_closing_tag_records_nothing_witness :
  scan_markers "<complete>The report is" = None.
Proof.
  apply (text_without_closing_tag_records_nothing "<complete>The report is" eq_refl).
Defined.

Lemma clean_path_keeps_plain_relative_paths_witness :
  CodeInterpreterTool._clean_path "out/result.txt" = "out/result.txt"
  /\ CodeInterpreterTool._clean_path "/workspace/out/result.txt" = "out/result.txt".
Proof.
  destruct (clean_path_keeps_plain_relative_paths "out/result.txt"
              eq_refl eq_refl eq_refl)
    as (H1 & _ & H3).
  split; [exact H1 | exact H3].
Defined.

Lemma plan_has_requested_number_of_steps_witness :
  length (PlanningTool._generate_plan_steps PlanningTool.lower_ascii
            "2025-01-01T00:00:00" "Write a REPORT on sales" 5)
  = 5.
Proof.
  apply (plan_has_requested_number_of_steps PlanningTool.lower_ascii
           "2025-01-01T00:00:00" "Write a REPORT on sales" 5).
  lia.
Defined.


Lemma plan_steps_are_pending_and_stamped_witness :
  dict_get "created_at"
    (PlanningTool.dict_set "created_at" (PStr "2025-01-01T00:00:00")
       (PlanningTool.pending "Define project scope and objectives"))
  = Some (PStr "2025-01-01T00:00:00").
Proof.
  apply (plan_steps_are_pending_and_stamped PlanningTool.lower_ascii
           "2025-01-01T00:00:00" "tidy the garage" 3
           (PlanningTool.dict_set "created_at" (PStr "2025-01-01T00:00:00")
              (PlanningTool.pending "Define project scope and objectives"))).
  left. reflexivity.
Defined.

Lemma website_template_wins_witness :
  PlanningTool._generate_plan_steps PlanningTool.lower_ascii
    "2025-01-01T00:00:00" "Research data for our Website" 2
  = map (PlanningTool.dict_set "created_at" (PStr "2025-01-01T00:00:00"))
        (firstn 2 PlanningTool.website_steps).
Proof.
  apply (website_template_wins PlanningTool.lower_ascii
           "2025-01-01T00:00:00" "Research data for our Website" 2 eq_refl).
  lia.
Defined.



(** ** Plan files *)

Lemma dict_get_set_same (key : string) (v : pyval) (d : pydict) :
  dict_get key (PlanningTool.dict_set key v d) = Some v.
Proof.
  induction d as [|[k x] d IH]; simpl.
  - now rewrite String.eqb_refl.
  - destruct (String.eqb k key) eqn:E; simpl; now rewrite E.
Qed.

Lemma dict_get_set_other (key other : string) (v : pyval) (d : pydict) :
  other <> key ->
  dict_get other (PlanningTool.dict_set key v d) = dict_get other d.
Proof.
  intros Hne. induction d as [|[k x] d IH]; simpl.
  - destruct (String.eqb_spec key other); [congruence | reflexivity].
  - destruct (String.eqb_spec k key); simpl.
    + subst. destruct (String.eqb_spec key other); [congruence | reflexivity].
    + now rewrite IH.
Qed.

Lemma length_list_set {A : Type} (x : A) (l : list A) :
  forall i, length (PlanningTool.list_set i x l) = length l.
Proof.
  induction l as [|a l IH]; intros i; [reflexivity|].
  destruct i; simpl; [reflexivity | now rewrite IH].
Qed.

Lemma nth_error_list_set_same {A : Type} (x : A) (l : list A) :
  forall i, i < length l -> nth_error (PlanningTool.list_set i x l) i = Some x.
Proof.
  induction l as [|a l IH]; intros i Hi; simpl in Hi; [lia|].
  destruct i; simpl; [reflexivity | apply IH; lia].
Qed.

Lemma nth_error_list_set_other {A : Type} (x : A) (l : list A) :
  forall i j, j <> i ->
              nth_error (PlanningTool.list_set i x l) j = nth_error l j.
Proof.
  induction l as [|a l IH]; intros i j Hne; [reflexivity|].
  destruct i, j; simpl; try reflexivity; try congruence.
  apply IH. congruence.
Qed.

Section PlanFileProperties.

Variable lower : string -> string.
Variable bytes : Type.
Variable json_dumps : pyval -> bytes.
Variable json_loads : bytes -> option pyval.
Variable fault_text : PlanningTool.fault -> string.

Abbreviation sandbox := (PlanningTool.sandbox bytes).
Abbreviation update_plan_step :=
  (PlanningTool.update_plan_step bytes json_dumps json_loads fault_text).
Abbreviation create_plan := (PlanningTool.create_plan lower bytes json_dumps).

Lemma update_invalid (timestamp : string) (sb : sandbox) (plan_name : string)
  (step_index : Z) (status : string) (notes : option string)
  (content : bytes) (plan : pydict) (steps : list pyval) :
  PlanningTool._ensure_sandbox bytes sb = None ->
  PlanningTool.download_file bytes sb (PlanningTool.plan_path plan_name) = Normal content ->
  json_loads content = Some (PDict plan) ->
  dict_get "steps" plan = Some (PList steps) ->
  (step_index < 1 \/ Z.of_nat (length steps) < step_index)%Z ->
  update_plan_step timestamp sb plan_name step_index status notes
  = (sb, PlanningTool.Returns (PlanningTool.invalid_index step_index (length steps))).
Proof.
  intros Hens Hdl Hloads Hsteps Hrange.
  unfold PlanningTool.update_plan_step.
  rewrite Hens, Hdl, Hloads.
  unfold PlanningTool.steps_len, PlanningTool.getitem_key. rewrite Hsteps.
  cbn [PlanningTool.py_len].
  destruct (step_index <? 1)%Z eqn:Hlt; [reflexivity|].
  apply Z.ltb_ge in Hlt.
  replace (step_index >? Z.of_nat (length steps))%Z with true; [reflexivity|].
  symmetry. rewrite Z.gtb_ltb. apply Z.ltb_lt. lia.
Qed.

Lemma update_valid (timestamp : string) (sb : sandbox) (plan_name : string)
  (step_index : Z) (status : string) (notes : option string)
  (content : bytes) (plan : pydict) (steps : list pyval) (plan_step : pydict) :
  PlanningTool._ensure_sandbox bytes sb = None ->
  PlanningTool.upload_raises bytes sb = None ->
  PlanningTool.download_file bytes sb (PlanningTool.plan_path plan_name) = Normal content ->
  json_loads content = Some (PDict plan) ->
  dict_get "steps" plan = Some (PList steps) ->
  (1 <= step_index <= Z.of_nat (length steps))%Z ->
  nth_error steps (Z.to_nat (step_index - 1)) = Some (PDict plan_step) ->
  update_plan_step timestamp sb plan_name step_index status notes
  = (PlanningTool.upload_file bytes sb (PlanningTool.plan_path plan_name)
       (json_dumps
          (PDict (PlanningTool.dict_set "steps"
                    (PList (PlanningTool.list_set (Z.to_nat (step_index - 1))
                              (PDict (PlanningTool.updated_step timestamp status notes
                                        plan_step))
                              steps))
                    plan))),
     PlanningTool.Returns
       (PlanningTool.Output
          ("Updated step " ++ PlanningTool.str_int step_index
           ++ " of plan '" ++ plan_name ++ "' to status '" ++ status ++ "'")%string)).
Proof.
  intros Hens Hup Hdl Hloads Hsteps Hrange Hnth.
  unfold PlanningTool.update_plan_step.
  rewrite Hens, Hdl, Hloads.
  unfold PlanningTool.steps_len, PlanningTool.getitem_key, PlanningTool.with_step.
  rewrite Hsteps. cbn [PlanningTool.py_len PlanningTool.getitem_index].
  replace (step_index <? 1)%Z with false by (symmetry; apply Z.ltb_ge; lia).
  replace (step_index >? Z.of_nat (length steps))%Z with false
    by (symmetry; rewrite Z.gtb_ltb; apply Z.ltb_ge; lia).
  now rewrite Hnth, Hup.
Qed.

Lemma updated_step_status (timestamp status : string) (notes : option string)
  (plan_step : pydict) :
  dict_get "status" (PlanningTool.updated_step timestamp status notes plan_step)
  = Some (PStr status)
  /\ dict_get "updated_at" (PlanningTool.updated_step timestamp status notes plan_step)
     = Some (PStr timestamp).
Proof.
  unfold PlanningTool.updated_step.
  destruct notes as [n|]; [destruct (String.eqb n "")|];
    rewrite ?(dict_get_set_other "notes"), ?(dict_get_set_other "updated_at" "status"),
      ?dict_get_set_same by discriminate;
    split; reflexivity.
Qed.

Lemma updated_step_other (timestamp status : string) (notes : option string)
  (plan_step : pydict) (key : string) :
  key <> "status" -> key <> "updated_at" -> key <> "notes" ->
  dict_get key (PlanningTool.updated_step timestamp status notes plan_step)
  = dict_get key plan_step.
Proof.
  intros H1 H2 H3. unfold PlanningTool.updated_step.
  destruct notes as [n|]; [destruct (String.eqb n "")|];
    now rewrite ?(dict_get_set_other "notes"), (dict_get_set_other "updated_at"),
      (dict_get_set_other "status") by assumption.
Qed.

Lemma updated_step_notes (timestamp status : string) (notes : option string)
  (plan_step : pydict) :
  dict_get "notes" (PlanningTool.updated_step timestamp status notes plan_step)
  = match notes with
    | Some n => if String.eqb n "" then dict_get "notes" plan_step else Some (PStr n)
    | None => dict_get "notes" plan_step
    end.
Proof.
  unfold PlanningTool.updated_step.
  destruct notes as [n|]; [destruct (String.eqb n "")|];
    rewrite ?dict_get_set_same; try reflexivity;
    now rewrite (dict_get_set_other "updated_at"), (dict_get_set_other "status")
      by discriminate.
Qed.

(** A step index below 1 or above the number of steps is refused with
    the message that names both numbers, and no file is written. *)
Theorem invalid_step_index_is_refused (timestamp : string) (sb : sandbox)
  (plan_name : string) (step_index : Z) (status : string) (notes : option string)
  (content : bytes) (plan : pydict) (steps : list pyval) :
  PlanningTool._ensure_sandbox bytes sb = None ->
  PlanningTool.download_file bytes sb (PlanningTool.plan_path plan_name) = Normal content ->
  json_loads content = Some (PDict plan) ->
  dict_get "steps" plan = Some (PList steps) ->
  (step_index < 1 \/ Z.of_nat (length steps) < step_index)%Z ->
  update_plan_step timestamp sb plan_name step_index status notes
  = (sb,
     PlanningTool.Returns
       (PlanningTool.Error
          ("Invalid step index: " ++ PlanningTool.str_int step_index ++ ". Plan has "
           ++ PlanningTool.str_int (Z.of_nat (length steps)) ++ " steps.")%string)).
Proof. apply update_invalid. Qed.

(** An update of step [step_index], from 1 to the number of steps,
    writes the plan back with that one step changed: the number of steps
    and every other step are as they were; the step has the new status,
    whatever string it is, and the timestamp of the call; notes that are
    given and not empty are stored, and otherwise the notes the step had
    are kept; every other key of the step is as it was. *)
Theorem valid_update_changes_one_step (timestamp : string) (sb : sandbox)
  (plan_name : string) (step_index : Z) (status : string) (notes : option string)
  (content : bytes) (plan : pydict) (steps : list pyval) (plan_step : pydict) :
  PlanningTool._ensure_sandbox bytes sb = None ->
  PlanningTool.upload_raises bytes sb = None ->
  PlanningTool.download_file bytes sb (PlanningTool.plan_path plan_name) = Normal content ->
  json_loads content = Some (PDict plan) ->
  dict_get "steps" plan = Some (PList steps) ->
  (1 <= step_index <= Z.of_nat (length steps))%Z ->
  nth_error steps (Z.to_nat (step_index - 1)) = Some (PDict plan_step) ->
  exists steps' plan_step',
    update_plan_step timestamp sb plan_name step_index status notes
    = (PlanningTool.upload_file bytes sb (PlanningTool.plan_path plan_name)
         (json_dumps (PDict (PlanningTool.dict_set "steps" (PList steps') plan))),
       PlanningTool.Returns
         (PlanningTool.Output
            ("Updated step " ++ PlanningTool.str_int step_index
             ++ " of plan '" ++ plan_name ++ "' to status '" ++ status ++ "'")%string))
    /\ length steps' = length steps
    /\ nth_error steps' (Z.to_nat (step_index - 1)) = Some (PDict plan_step')
    /\ (forall j, j <> Z.to_nat (step_index - 1) ->
                  nth_error steps' j = nth_error steps j)
    /\ dict_get "status" plan_step' = Some (PStr status)
    /\ dict_get "updated_at" plan_step' = Some (PStr timestamp)
    /\ dict_get "notes" plan_step'
       = match notes with
         | Some n => if String.eqb n "" then dict_get "notes" plan_step else Some (PStr n)
         | None => dict_get "notes" plan_step
         end
    /\ (forall key, key <> "status" -> key <> "updated_at" -> key <> "notes" ->
                    dict_get key plan_step' = dict_get key plan_step).
Proof.
  intros Hens Hup Hdl Hloads Hsteps Hrange Hnth.
  eexists. eexists. split.
  - apply (update_valid timestamp sb plan_name step_index status notes
             content plan steps plan_step); assumption.
  - split; [apply length_list_set|].
    split; [apply nth_error_list_set_same; lia|].
    split; [intros j Hj; now apply nth_error_list_set_other|].
    destruct (updated_step_status timestamp status notes plan_step) as [Hs Hu].
    split; [exact Hs|]. split; [exact Hu|].
    split; [apply updated_step_notes|].
    intros key. apply updated_step_other.
Qed.

(** [update_plan_step] writes only when it reports success: whenever
    its result is not an output, the files are as they were. *)
Theorem update_writes_only_on_success (timestamp : string) (sb : sandbox)
  (plan_name : string) (step_index : Z) (status : string) (notes : option string) :
  (forall output,
      snd (update_plan_step timestamp sb plan_name step_index status notes)
      <> PlanningTool.Returns (PlanningTool.Output output)) ->
  fst (update_plan_step timestamp sb plan_name step_index status notes) = sb.
Proof.
  unfold PlanningTool.update_plan_step.
  destruct (PlanningTool._ensure_sandbox bytes sb); [reflexivity|].
  destruct (PlanningTool.download_file bytes sb (PlanningTool.plan_path plan_name))
    as [content|e]; [|reflexivity].
  destruct (json_loads content) as [plan|]; [|reflexivity].
  destruct (step_index <? 1)%Z.
  - destruct (PlanningTool.steps_len plan); reflexivity.
  - destruct (PlanningTool.steps_len plan) as [f|n]; [reflexivity|].
    destruct (step_index >? Z.of_nat n)%Z; [reflexivity|].
    destruct (PlanningTool.getitem_key plan "steps") as [f|steps]; [reflexivity|].
    destruct (PlanningTool.getitem_index steps (Z.to_nat (step_index - 1)))
      as [f|[| | | | |plan_step]]; try reflexivity.
    destruct (PlanningTool.upload_raises bytes sb); [reflexivity|].
    cbn [fst snd]. intros H. exfalso. eapply H. reflexivity.
Qed.

(** A plan that [create_plan] has saved takes updates for the indices of
    its steps and for no others: with a content that is read back as it
    was written, an update of the new plan succeeds for a step index from
    1 to the number of generated steps, and is refused for any other. *)
Theorem created_plan_takes_its_own_indices
  (uuid_hex uuid_str step_timestamp plan_timestamp timestamp : string)
  (sb : sandbox) (task plan_name : string) (num_steps step_index : Z)
  (status : string) (notes : option string) :
  (forall v, json_loads (json_dumps v) = Some v) ->
  PlanningTool._ensure_sandbox bytes sb = None ->
  PlanningTool.upload_raises bytes sb = None ->
  PlanningTool.exec_raises bytes sb = None ->
  plan_name <> "" ->
  let n := length (PlanningTool._generate_plan_steps lower step_timestamp task num_steps) in
  let sb' := fst (create_plan uuid_hex uuid_str step_timestamp plan_timestamp
                    sb task num_steps (Some plan_name) true) in
  ((1 <= step_index <= Z.of_nat n)%Z ->
   exists output,
     snd (update_plan_step timestamp sb' plan_name step_index status notes)
     = PlanningTool.Returns (PlanningTool.Output output))
  /\ ((step_index < 1 \/ Z.of_nat n < step_index)%Z ->
      update_plan_step timestamp sb' plan_name step_index status notes
      = (sb', PlanningTool.Returns (PlanningTool.invalid_index step_index n))).
Proof.
  intros Hround Hens Hup Hexec Hname n sb'.
  assert (Hsb : sb' = PlanningTool.upload_file bytes sb (PlanningTool.plan_path plan_name)
                        (json_dumps
                           (PDict [("id", PStr uuid_str); ("name", PStr plan_name);
                                   ("task", PStr task);
                                   ("steps",
                                    PList (map PDict
                                             (PlanningTool._generate_plan_steps lower
                                                step_timestamp task num_steps)));
                                   ("created_at", PStr plan_timestamp);
                                   ("status", PStr "created")]))).
  { unfold sb', PlanningTool.create_plan. rewrite Hens, Hexec, Hup.
    destruct (String.eqb_spec plan_name ""); [contradiction | reflexivity]. }
  assert (Hdl : PlanningTool.download_file bytes sb' (PlanningTool.plan_path plan_name)
                = Normal (json_dumps
                            (PDict [("id", PStr uuid_str); ("name", PStr plan_name);
                                    ("task", PStr task);
                                    ("steps",
                                     PList (map PDict
                                              (PlanningTool._generate_plan_steps lower
                                                 step_timestamp task num_steps)));
                                    ("created_at", PStr plan_timestamp);
                                    ("status", PStr "created")]))).
  { rewrite Hsb. cbn [PlanningTool.upload_file PlanningTool.download_file].
    now rewrite String.eqb_refl. }
  assert (Hens' : PlanningTool._ensure_sandbox bytes sb' = None) by (now rewrite Hsb).
  assert (Hup' : PlanningTool.upload_raises bytes sb' = None) by (now rewrite Hsb).
  split.
  - intros Hrange.
    destruct (nth_error (PlanningTool._generate_plan_steps lower step_timestamp task num_steps)
                (Z.to_nat (step_index - 1))) as [plan_step|] eqn:Hnth.
    + eexists.
      rewrite (update_valid timestamp sb' plan_name step_index status notes _ _ _ plan_step
                 Hens' Hup' Hdl (Hround _) eq_refl).
      * reflexivity.
      * rewrite length_map. exact Hrange.
      * apply map_nth_error. exact Hnth.
    + apply nth_error_None in Hnth. fold n in Hnth. lia.
  - intros Hrange.
    rewrite (update_invalid timestamp sb' plan_name step_index status notes _ _ _
               Hens' Hdl (Hround _) eq_refl).
    + now rewrite length_map.
    + now rewrite length_map.
Qed.

End PlanFileProperties.

(** ** Chat messages *)

Lemma role_allowed_iff (role : pyval) :
  ChatCompletionTool.role_allowed role = true
  <-> exists r, role = PStr r /\ In r ["system"; "user"; "assistant"].
Proof.
  destruct role; simpl; split; try discriminate;
    try (intros (r & H & _); discriminate).
  - intros H. exists s. split; [reflexivity|].
    repeat (apply orb_true_iff in H as [H|H];
            [apply String.eqb_eq in H; subst; simpl; auto|]).
    discriminate.
  - intros (r & Hr & Hin). inversion Hr; subst.
    simpl in Hin. destruct Hin as [<-|[<-|[<-|[]]]]; reflexivity.
Qed.

Lemma check_each_iff (py_str : pyval -> string) (messages : list pyval) :
  ChatCompletionTool.check_each py_str messages = None
  <-> Forall ChatCompletionTool.well_formed_message messages.
Proof.
  induction messages as [|msg messages IH]; simpl.
  - split; [constructor | reflexivity].
  - destruct msg as [| | | | |d];
      try (split; [discriminate | intros H; inversion H as [|? ? (d & r & Hd & _) _];
                                  discriminate]).
    unfold dict_mem, dict_get_default.
    destruct (dict_get "role" d) as [role|] eqn:Hrole; simpl.
    + destruct (dict_get "content" d) as [content|] eqn:Hcontent; simpl.
      * destruct (ChatCompletionTool.role_allowed role) eqn:Hok; simpl.
        -- apply role_allowed_iff in Hok as (r & -> & Hin). split.
           ++ intros H. constructor; [|now apply IH].
              exists d, r. unfold dict_mem. rewrite Hcontent. auto.
           ++ intros H. inversion H. now apply IH.
        -- split; [discriminate|]. intros H.
           inversion H as [|? ? (d' & r & Hd & Hr & Hin & _) _]. inversion Hd; subst.
           rewrite Hrole in Hr. inversion Hr; subst.
           assert (Hyes : ChatCompletionTool.role_allowed (PStr r) = true)
             by (apply role_allowed_iff; now exists r).
           congruence.
      * split; [discriminate|]. intros H.
        inversion H as [|? ? (d' & r & Hd & _ & _ & Hc) _]. inversion Hd; subst.
        unfold dict_mem in Hc. rewrite Hcontent in Hc. discriminate.
    + split; [discriminate|]. intros H.
      inversion H as [|? ? (d' & r & Hd & Hr & _) _]. inversion Hd; subst.
      congruence.
Qed.

(** The validation lets through the lists that are not empty and hold
    only dicts with a content and with a role among system, user and
    assistant, and nothing else; what it refuses is answered with its
    error before the database or the model is reached. *)
Theorem messages_accepted_iff_well_formed
  (py_str : pyval -> string) (messages : pyval) :
  (ChatCompletionTool.validate_messages py_str messages = None
   <-> exists l, messages = PList l /\ l <> []
                 /\ Forall ChatCompletionTool.well_formed_message l)
  /\ (forall error MODEL_TO_USE rest model,
        ChatCompletionTool.validate_messages py_str messages = Some error ->
        ChatCompletionTool.create_chat_completion py_str None MODEL_TO_USE rest
          messages model
        = PlanningTool.Returns (PlanningTool.Error error)).
Proof.
  split.
  - unfold ChatCompletionTool.validate_messages.
    destruct messages as [| | | |l|];
      try (split; [discriminate | intros (l & H & _); discriminate]).
    destruct l as [|msg l].
    + simpl. split; [discriminate | intros (l & H & Hne & _)].
      inversion H; subst. now contradiction Hne.
    + cbn [truthy negb]. rewrite check_each_iff. split.
      * intros H. exists (msg :: l). repeat split; [discriminate | assumption].
      * intros (l' & H & _ & HF). now inversion H; subst.
  - intros error MODEL_TO_USE rest model H.
    unfold ChatCompletionTool.create_chat_completion. now rewrite H.
Qed.

(** ** Sample plans and messages *)

Lemma invalid_step_index_is_refused_witness :
  PlanningTool.update_plan_step pyval (fun v => v) Some PlanningTool.sample_fault_text
    "2025-01-02T00:00:00" PlanningTool.report_sandbox "q3" 4 "completed" None
  = (PlanningTool.report_sandbox,
     PlanningTool.Returns
       (PlanningTool.Error "Invalid step index: 4. Plan has 3 steps.")).
Proof.
  apply (invalid_step_index_is_refused pyval (fun v => v) Some
           PlanningTool.sample_fault_text
           "2025-01-02T00:00:00" PlanningTool.report_sandbox "q3" 4 "completed" None
           (PDict PlanningTool.report_plan) PlanningTool.report_plan
           (map PDict PlanningTool.report_steps)
           eq_refl eq_refl eq_refl eq_refl).
  right. vm_compute. reflexivity.
Defined.

Lemma valid_update_changes_one_step_witness :
  exists steps' plan_step',
    snd (PlanningTool.update_plan_step pyval (fun v => v) Some
           PlanningTool.sample_fault_text
           "2025-01-02T00:00:00" PlanningTool.report_sandbox "q3" 2 "shelved" (Some ""))
    = PlanningTool.Returns
        (PlanningTool.Output "Updated step 2 of plan 'q3' to status 'shelved'")
    /\ length steps' = 3
    /\ nth_error steps' 1 = Some (PDict plan_step')
    /\ dict_get "status" plan_step' = Some (PStr "shelved")
    /\ dict_get "notes" plan_step' = None.
Proof.
  destruct (valid_update_changes_one_step pyval (fun v => v) Some
              PlanningTool.sample_fault_text
              "2025-01-02T00:00:00" PlanningTool.report_sandbox "q3" 2 "shelved" (Some "")
              (PDict PlanningTool.report_plan) PlanningTool.report_plan
              (map PDict PlanningTool.report_steps)
              (PlanningTool.dict_set "created_at" (PStr "2025-01-01T00:00:00")
                 (PlanningTool.pending "Gather relevant sources and materials"))
              eq_refl eq_refl eq_refl eq_refl eq_refl)
    as (steps' & plan_step' & Hrun & Hlen & Hnth & _ & Hst & _ & Hnotes & _).
  - vm_compute. split; discriminate.
  - reflexivity.
  - exists steps', plan_step'. rewrite Hrun. repeat split; assumption.
Defined.

Lemma update_writes_only_on_success_witness :
  fst (PlanningTool.update_plan_step pyval (fun v => v) Some
         PlanningTool.sample_fault_text
         "2025-01-02T00:00:00" PlanningTool.empty_sandbox "q3" 1 "completed" None)
  = PlanningTool.empty_sandbox.
Proof.
  apply (update_writes_only_on_success pyval (fun v => v) Some
           PlanningTool.sample_fault_text
           "2025-01-02T00:00:00" PlanningTool.empty_sandbox "q3" 1 "completed" None).
  intros output. vm_compute. discriminate.
Defined.

Lemma created_plan_takes_its_own_indices_witness :
  exists output,
    snd (PlanningTool.update_plan_step pyval (fun v => v) Some
           PlanningTool.sample_fault_text "2025-01-02T00:00:00"
           (fst (PlanningTool.create_plan PlanningTool.lower_ascii pyval (fun v => v)
                   "0123456789abcdef0123456789abcdef"
                   "9f1c2b7e-0000-4000-8000-000000000001"
                   "2025-01-01T00:00:00" "2025-01-01T00:00:01"
                   PlanningTool.empty_sandbox "Write a report" 3 (Some "q3") true))
           "q3" 3 "completed" None)
    = PlanningTool.Returns (PlanningTool.Output output).
Proof.
  apply (proj1 (created_plan_takes_its_own_indices PlanningTool.lower_ascii pyval
                  (fun v => v) Some PlanningTool.sample_fault_text
                  "0123456789abcdef0123456789abcdef"
                  "9f1c2b7e-0000-4000-8000-000000000001"
                  "2025-01-01T00:00:00" "2025-01-01T00:00:01" "2025-01-02T00:00:00"
                  PlanningTool.empty_sandbox "Write a report" "q3" 3 3 "completed" None
                  (fun v => eq_refl) eq_refl eq_refl eq_refl
                  ltac:(discriminate))).
  vm_compute. split; discriminate.
Defined.

Lemma messages_accepted_iff_well_formed_witness :
  ChatCompletionTool.create_chat_completion
    (fun v => match v with PStr s => s | _ => "" end) None "default-model"
    (fun model => PlanningTool.Returns (PlanningTool.Output model))
    (PList [PDict [("role", PStr "tool"); ("content", PStr "42")]]) None
  = PlanningTool.Returns
      (PlanningTool.Error "Invalid role: tool. Must be one of: system, user, assistant").
Proof.
  apply (proj2 (messages_accepted_iff_well_formed
                  (fun v => match v with PStr s => s | _ => "" end)
                  (PList [PDict [("role", PStr "tool"); ("content", PStr "42")]]))).
  reflexivity.
Defined.
